(** * Countdown reconciliation and live-feed buffering of the auction dashboard

    A shallow embedding of the three stateful React components of the
    dashboard:

    - [AuctionStatus], the auction phase panel with its two countdowns,
    - [ExpressLaneController], the controller panel with its countdown,
    - [StreamTimeboostedTxsComponent], the live transaction feed.

    Every [useState] cell and every [useRef] cell of a component is a
    field of a record; a callback or an effect of the component is a
    function from the record to the record.  [Date.now()] is an argument
    of the function that reads it.  Numbers are integers ([Z]): the
    countdowns are whole seconds and the clock is whole milliseconds. *)

From Stdlib Require Import ZArith List String Ascii Bool Lia Sorted.
From Stdlib Require DecimalString DecimalZ.
Import ListNotations.
Open Scope Z_scope.

(** ** JavaScript coercions used by the components *)

Module JS.

(** [!x] for [x : number | null]: [null] and [0] are falsy. *)
Definition not_number (x : option Z) : bool :=
  match x with
  | None => true
  | Some v => v =? 0
  end.

(** [ToNumber] of a [number | null] operand of an arithmetic operator. *)
Definition to_number (x : option Z) : Z :=
  match x with
  | None => 0
  | Some v => v
  end.

(** [x !== null]. *)
Definition not_null {A : Type} (x : option A) : bool :=
  match x with
  | None => false
  | Some _ => true
  end.

(** [!s] for [s : string | null]: [null] and the empty string are falsy. *)
Definition not_string (s : option string) : bool :=
  match s with
  | None => true
  | Some str => String.eqb str EmptyString
  end.

(** [a || b] on strings: the left operand unless it is empty. *)
Definition or_string (a b : string) : string :=
  if String.eqb a EmptyString then b else a.

(** [err instanceof Error ? err.message : fallback]; a thrown value is
    [Some message] when it is an [Error] and [None] otherwise. *)
Definition message_or (err : option string) (fallback : string) : string :=
  match err with
  | Some m => m
  | None => fallback
  end.

End JS.

(** ** The one-second interval shared by the three countdowns

    Each countdown owns a [useEffect] whose dependency is
    [[local !== null]].  When the effect runs, its clean-up clears the
    interval and its body installs a new one iff
    [local !== null && local > 0].  The interval callback is the state
    updater [prev => (prev === null || prev <= 0) ? null : prev - 1]. *)

Module Countdown.

(** The updater passed to the state setter by the interval callback. *)
Definition tickUpdater (prev : option Z) : option Z :=
  match prev with
  | None => None
  | Some p => if p <=? 0 then None else Some (p - 1)
  end.

(** Is an interval installed after the effect body ran on [local]? *)
Definition intervalBody (local : option Z) : bool :=
  match local with
  | None => false
  | Some v => v >? 0
  end.

(** The effect between two renders: it runs only when its dependency
    [local !== null] changed; otherwise the ref keeps its value. *)
Definition intervalEffect (before after : option Z) (ref : bool) : bool :=
  if Bool.eqb (JS.not_null before) (JS.not_null after)
  then ref
  else intervalBody after.

(** [n] applications of the updater. *)
Fixpoint ticks (n : nat) (local : option Z) : option Z :=
  match n with
  | O => local
  | S k => ticks k (tickUpdater local)
  end.

(** The resync test written inline in the three sample effects:
    [!local || timeSinceLastSync > 3000 || Math.abs(local - sample) > 2]. *)
Definition resync (local : option Z) (timeSinceLastSync sample : Z) : bool :=
  JS.not_number local
  || (timeSinceLastSync >? 3000)
  || (Z.abs (JS.to_number local - sample) >? 2).

#[global] Arguments resync : simpl never.

(** One firing of the interval of a countdown, seen on the pair of the
    displayed value and the interval ref alone: the callback fires only
    while the interval is installed, and the interval effect follows the
    render. *)
Definition timedTick (c : option Z * bool) : option Z * bool :=
  if snd c
  then (tickUpdater (fst c),
        intervalEffect (fst c) (tickUpdater (fst c)) (snd c))
  else c.

(** The interval is installed, or there is nothing left to tick. *)
Definition ticking (c : option Z * bool) : Prop :=
  snd c = true \/ fst c = None.

End Countdown.

(** ** AuctionStatus component *)

Module AuctionStatusComponent.

Inductive Phase := bidding | closing | resolving | active | unknown.

(** The fields of the polled status that the component's logic reads. *)
Record AuctionStatus := mkAuctionStatus {
  currentPhase : Phase;
  timeUntilAuctionCloses : Z;
  timeUntilRoundStarts : Z
}.

Record State := mkState {
  status : option AuctionStatus;
  loading : bool;
  error : option string;
  isInitialLoad : bool;
  localCountdown : option Z;
  localRoundStartCountdown : option Z;
  countdownIntervalRef : bool;
  roundStartIntervalRef : bool;
  lastSyncTimeRef : Z
}.

(** The [useState]/[useRef] initial values. *)
Definition initial : State :=
  mkState None false None true None None false false 0.

Definition setStatus (v : option AuctionStatus) (st : State) : State :=
  mkState v (loading st) (error st) (isInitialLoad st) (localCountdown st)
    (localRoundStartCountdown st) (countdownIntervalRef st)
    (roundStartIntervalRef st) (lastSyncTimeRef st).

Definition setLoading (v : bool) (st : State) : State :=
  mkState (status st) v (error st) (isInitialLoad st) (localCountdown st)
    (localRoundStartCountdown st) (countdownIntervalRef st)
    (roundStartIntervalRef st) (lastSyncTimeRef st).

Definition setError (v : option string) (st : State) : State :=
  mkState (status st) (loading st) v (isInitialLoad st) (localCountdown st)
    (localRoundStartCountdown st) (countdownIntervalRef st)
    (roundStartIntervalRef st) (lastSyncTimeRef st).

Definition setIsInitialLoad (v : bool) (st : State) : State :=
  mkState (status st) (loading st) (error st) v (localCountdown st)
    (localRoundStartCountdown st) (countdownIntervalRef st)
    (roundStartIntervalRef st) (lastSyncTimeRef st).

Definition setLocalCountdown (v : option Z) (st : State) : State :=
  mkState (status st) (loading st) (error st) (isInitialLoad st) v
    (localRoundStartCountdown st) (countdownIntervalRef st)
    (roundStartIntervalRef st) (lastSyncTimeRef st).

Definition setLocalRoundStartCountdown (v : option Z) (st : State) : State :=
  mkState (status st) (loading st) (error st) (isInitialLoad st)
    (localCountdown st) v (countdownIntervalRef st)
    (roundStartIntervalRef st) (lastSyncTimeRef st).

Definition setIntervalRefs (c r : bool) (st : State) : State :=
  mkState (status st) (loading st) (error st) (isInitialLoad st)
    (localCountdown st) (localRoundStartCountdown st) c r
    (lastSyncTimeRef st).

Definition setLastSyncTimeRef (v : Z) (st : State) : State :=
  mkState (status st) (loading st) (error st) (isInitialLoad st)
    (localCountdown st) (localRoundStartCountdown st)
    (countdownIntervalRef st) (roundStartIntervalRef st) v.

(** The effect on [[status]].  [st] is the render the effect closes
    over: both resync tests read the countdowns of that render. *)
Definition statusEffect (now : Z) (st : State) : State :=
  match status st with
  | None => st
  | Some s =>
    let timeSinceLastSync := now - lastSyncTimeRef st in
    let st' :=
      match currentPhase s with
      | bidding =>
        let st1 :=
          if Countdown.resync (localCountdown st) timeSinceLastSync
               (timeUntilAuctionCloses s)
          then setLocalCountdown (Some (timeUntilAuctionCloses s)) st
          else st in
        setLocalRoundStartCountdown None st1
      | closing | resolving =>
        let st1 := setLocalCountdown None st in
        if Countdown.resync (localRoundStartCountdown st) timeSinceLastSync
             (timeUntilRoundStarts s)
        then setLocalRoundStartCountdown (Some (timeUntilRoundStarts s)) st1
        else st1
      | active | unknown =>
        setLocalRoundStartCountdown None (setLocalCountdown None st)
      end in
    setLastSyncTimeRef now st'
  end.

(** The two interval effects, run for the render [after] that follows
    the render [before]. *)
Definition intervalEffects (before after : State) : State :=
  setIntervalRefs
    (Countdown.intervalEffect (localCountdown before) (localCountdown after)
       (countdownIntervalRef after))
    (Countdown.intervalEffect (localRoundStartCountdown before)
       (localRoundStartCountdown after) (roundStartIntervalRef after))
    after.

(** [fetchStatus], up to its [await]. *)
Definition fetchStatus_begin (st : State) : State :=
  setError None (setLoading true st).

(** [fetchStatus] after the poll resolved with [s]: the [try] body, the
    [finally], then the effects of the renders that follow. *)
Definition fetchStatus_resolved (now : Z) (s : AuctionStatus) (st : State)
  : State :=
  let st1 := setLoading false (setIsInitialLoad false (setStatus (Some s) st)) in
  intervalEffects st1 (statusEffect now st1).

(** [fetchStatus] after the poll rejected with [err]: the [catch], then
    the [finally].  No dependency of an effect changes. *)
Definition fetchStatus_rejected (err : option string) (st : State) : State :=
  setLoading false
    (setError (Some (JS.message_or err "Unknown error occurred")) st).

(** The interval callback of the bidding countdown; it fires only
    while its interval is installed. *)
Definition countdownTick (st : State) : State :=
  if countdownIntervalRef st
  then intervalEffects st
         (setLocalCountdown (Countdown.tickUpdater (localCountdown st)) st)
  else st.

(** The interval callback of the round-start countdown. *)
Definition roundStartTick (st : State) : State :=
  if roundStartIntervalRef st
  then intervalEffects st
         (setLocalRoundStartCountdown
            (Countdown.tickUpdater (localRoundStartCountdown st)) st)
  else st.

(** What can happen to a mounted component. *)
Inductive Event :=
| PollBegin
| PollResolved (now : Z) (s : AuctionStatus)
| PollRejected (err : option string)
| CountdownTick
| RoundStartTick.

Definition step (st : State) (e : Event) : State :=
  match e with
  | PollBegin => fetchStatus_begin st
  | PollResolved now s => fetchStatus_resolved now s st
  | PollRejected err => fetchStatus_rejected err st
  | CountdownTick => countdownTick st
  | RoundStartTick => roundStartTick st
  end.

Definition run (es : list Event) (st : State) : State := fold_left step es st.

Inductive reachable : State -> Prop :=
| reachable_initial : reachable initial
| reachable_step st e : reachable st -> reachable (step st e).

(** At most one of the two countdowns is displayed. *)
Definition exclusive (st : State) : Prop :=
  localCountdown st = None \/ localRoundStartCountdown st = None.

(** A poll that fails: [fetchStatus] from its call to its rejection. *)
Definition failedPoll (err : option string) (st : State) : State :=
  fetchStatus_rejected err (fetchStatus_begin st).

(** The cells of the countdown reconciliation: the last sample, the two
    displayed values, the two interval refs and the time of the last
    resync. *)
Definition reconciler (st : State) :=
  (status st, localCountdown st, localRoundStartCountdown st,
   countdownIntervalRef st, roundStartIntervalRef st, lastSyncTimeRef st).

End AuctionStatusComponent.

(** ** ExpressLaneController component *)

Module ExpressLaneControllerComponent.

(** The fields of the polled controller that the component's logic
    reads; [currentController] is an address or [null]. *)
Record ExpressLaneController := mkExpressLaneController {
  currentController : option string;
  timeRemainingInRound : Z
}.

Record State := mkState {
  controller : option ExpressLaneController;
  loading : bool;
  error : option string;
  isInitialLoad : bool;
  localTimeRemaining : option Z;
  countdownIntervalRef : bool;
  lastSyncTimeRef : Z
}.

Definition initial : State := mkState None false None true None false 0.

Definition setController (v : option ExpressLaneController) (st : State)
  : State :=
  mkState v (loading st) (error st) (isInitialLoad st)
    (localTimeRemaining st) (countdownIntervalRef st) (lastSyncTimeRef st).

Definition setLoading (v : bool) (st : State) : State :=
  mkState (controller st) v (error st) (isInitialLoad st)
    (localTimeRemaining st) (countdownIntervalRef st) (lastSyncTimeRef st).

Definition setError (v : option string) (st : State) : State :=
  mkState (controller st) (loading st) v (isInitialLoad st)
    (localTimeRemaining st) (countdownIntervalRef st) (lastSyncTimeRef st).

Definition setIsInitialLoad (v : bool) (st : State) : State :=
  mkState (controller st) (loading st) (error st) v
    (localTimeRemaining st) (countdownIntervalRef st) (lastSyncTimeRef st).

Definition setLocalTimeRemaining (v : option Z) (st : State) : State :=
  mkState (controller st) (loading st) (error st) (isInitialLoad st)
    v (countdownIntervalRef st) (lastSyncTimeRef st).

Definition setCountdownIntervalRef (v : bool) (st : State) : State :=
  mkState (controller st) (loading st) (error st) (isInitialLoad st)
    (localTimeRemaining st) v (lastSyncTimeRef st).

Definition setLastSyncTimeRef (v : Z) (st : State) : State :=
  mkState (controller st) (loading st) (error st) (isInitialLoad st)
    (localTimeRemaining st) (countdownIntervalRef st) v.

(** [!controller || !controller.currentController]. *)
Definition noController (c : option ExpressLaneController) : bool :=
  match c with
  | None => true
  | Some info => JS.not_string (currentController info)
  end.

(** The effect on [[controller]]. *)
Definition controllerEffect (now : Z) (st : State) : State :=
  match controller st with
  | None => setLocalTimeRemaining None st
  | Some info =>
    if JS.not_string (currentController info)
    then setLocalTimeRemaining None st
    else
      let timeSinceLastSync := now - lastSyncTimeRef st in
      let st1 :=
        if Countdown.resync (localTimeRemaining st) timeSinceLastSync
             (timeRemainingInRound info)
        then setLocalTimeRemaining (Some (timeRemainingInRound info)) st
        else st in
      setLastSyncTimeRef now st1
  end.

Definition intervalEffects (before after : State) : State :=
  setCountdownIntervalRef
    (Countdown.intervalEffect (localTimeRemaining before)
       (localTimeRemaining after) (countdownIntervalRef after))
    after.

Definition fetchController_begin (st : State) : State :=
  setError None (setLoading true st).

Definition fetchController_resolved (now : Z) (info : ExpressLaneController)
  (st : State) : State :=
  let st1 :=
    setLoading false (setIsInitialLoad false (setController (Some info) st)) in
  intervalEffects st1 (controllerEffect now st1).

Definition fetchController_rejected (err : option string) (st : State)
  : State :=
  setLoading false
    (setError (Some (JS.message_or err "Unknown error occurred")) st).

Definition countdownTick (st : State) : State :=
  if countdownIntervalRef st
  then intervalEffects st
         (setLocalTimeRemaining
            (Countdown.tickUpdater (localTimeRemaining st)) st)
  else st.

Inductive Event :=
| PollBegin
| PollResolved (now : Z) (info : ExpressLaneController)
| PollRejected (err : option string)
| CountdownTick.

Definition step (st : State) (e : Event) : State :=
  match e with
  | PollBegin => fetchController_begin st
  | PollResolved now info => fetchController_resolved now info st
  | PollRejected err => fetchController_rejected err st
  | CountdownTick => countdownTick st
  end.

Definition run (es : list Event) (st : State) : State := fold_left step es st.

(** A poll that fails: [fetchController] from its call to its rejection. *)
Definition failedPoll (err : option string) (st : State) : State :=
  fetchController_rejected err (fetchController_begin st).

(** The cells of the countdown reconciliation. *)
Definition reconciler (st : State) :=
  (controller st, localTimeRemaining st, countdownIntervalRef st,
   lastSyncTimeRef st).

End ExpressLaneControllerComponent.

(** ** StreamTimeboostedTxsComponent *)

Module StreamTimeboostedTxsComponent.

(** The fields of a streamed transaction that the component reads. *)
Record TimeboostedTransaction := mkTimeboostedTransaction {
  hash : string;
  blockNumber : Z;
  transactionIndex : Z
}.

(** [{ ...tx, timestamp: Date.now() }]. *)
Record TransactionWithTimestamp := mkTransactionWithTimestamp {
  tx : TimeboostedTransaction;
  timestamp : Z
}.

Record State := mkState {
  transactions : list TransactionWithTimestamp;
  isStreaming : bool;
  error : option string;
  totalCount : Z;
  unwatchRef : bool
}.

Definition initial : State := mkState [] false None 0 false.

Definition setTransactions (v : list TransactionWithTimestamp) (st : State)
  : State :=
  mkState v (isStreaming st) (error st) (totalCount st) (unwatchRef st).

Definition setIsStreaming (v : bool) (st : State) : State :=
  mkState (transactions st) v (error st) (totalCount st) (unwatchRef st).

Definition setError (v : option string) (st : State) : State :=
  mkState (transactions st) (isStreaming st) v (totalCount st) (unwatchRef st).

Definition setTotalCount (v : Z) (st : State) : State :=
  mkState (transactions st) (isStreaming st) (error st) v (unwatchRef st).

Definition setUnwatchRef (v : bool) (st : State) : State :=
  mkState (transactions st) (isStreaming st) (error st) (totalCount st) v.

(** [prev.slice(0, 19)]. *)
Definition slice_0_19 (prev : list TransactionWithTimestamp) :=
  firstn 19 prev.

(** The [onTransaction] callback, called at time [now]. *)
Definition onTransaction (now : Z) (t : TimeboostedTransaction) (st : State)
  : State :=
  let txWithTimestamp := mkTransactionWithTimestamp t now in
  setTotalCount (totalCount st + 1)
    (setTransactions (txWithTimestamp :: slice_0_19 (transactions st)) st).

(** The [onError] callback; [message] is [err.message]. *)
Definition onError (message : string) (st : State) : State :=
  setIsStreaming false
    (setError (Some (JS.or_string message "Streaming error occurred")) st).

(** [startStreaming]; [thrown] is [None] when the subscription call
    returned its handle and [Some err] when it threw [err]. *)
Definition startStreaming (thrown : option (option string)) (st : State)
  : State :=
  let st1 :=
    setTotalCount 0
      (setTransactions [] (setError None (setIsStreaming true st))) in
  match thrown with
  | None => setUnwatchRef true st1
  | Some err =>
    setIsStreaming false
      (setError (Some (JS.message_or err "Failed to start streaming")) st1)
  end.

(** [stopStreaming], after its [await]. *)
Definition stopStreaming (st : State) : State :=
  let st1 := setIsStreaming false st in
  if unwatchRef st1 then setUnwatchRef false st1 else st1.

(** [resetComponent], the effect on [[client, chainName]]. *)
Definition resetComponent (st : State) : State :=
  let st1 := if unwatchRef st then setUnwatchRef false st else st in
  setError None
    (setTotalCount 0 (setTransactions [] (setIsStreaming false st1))).

(** [Date.now() - tx.timestamp < 3000], evaluated in the render at
    time [now]. *)
Definition isNew (now : Z) (t : TransactionWithTimestamp) : bool :=
  now - timestamp t <? 3000.

(** The flags of one render: [transactions.map(tx => isNew)]. *)
Definition renderIsNew (now : Z) (st : State) : list bool :=
  map (isNew now) (transactions st).

(** A run of [onTransaction] calls in delivery order, each with the
    time at which it was delivered. *)
Definition deliver (evs : list (Z * TimeboostedTransaction)) (st : State)
  : State :=
  fold_left (fun s e => onTransaction (fst e) (snd e) s) evs st.

(** The stamped events of a run, oldest first. *)
Definition stamped (evs : list (Z * TimeboostedTransaction))
  : list TransactionWithTimestamp :=
  map (fun e => mkTransactionWithTimestamp (snd e) (fst e)) evs.

End StreamTimeboostedTxsComponent.

Module AS := AuctionStatusComponent.
Module ELC := ExpressLaneControllerComponent.
Module STX := StreamTimeboostedTxsComponent.

(** ** The resync policy, as propositions *)

Module Policy.

(** The three triggers as the specification words them: (a) nothing is
    displayed, (b) more than 3000 ms since the last resync, (c) the
    displayed value and the sample differ by more than 2. *)
Definition stated (displayed : option Z) (elapsed sample : Z) : Prop :=
  displayed = None
  \/ elapsed > 3000
  \/ exists v, displayed = Some v /\ Z.abs (v - sample) > 2.

(** The triggers of the components: a displayed 0 counts as nothing
    displayed. *)
Definition coded (displayed : option Z) (elapsed sample : Z) : Prop :=
  displayed = Some 0 \/ stated displayed elapsed sample.

(** A call follows the triggers [trigger] when it replaces the
    displayed value by the sample if one of them holds and leaves the
    displayed value as it was if none does. *)
Definition follows (trigger : option Z -> Z -> Z -> Prop)
  (before after : option Z) (elapsed sample : Z) : Prop :=
  (trigger before elapsed sample -> after = Some sample)
  /\ (~ trigger before elapsed sample -> after = before).

End Policy.

(** ** Concrete runs used as examples *)

Module Scenario.

(** A first bidding sample of 0 at t = 10000: 0 is displayed. *)
Definition AS_at_zero : AS.State :=
  AS.fetchStatus_resolved 10000 (AS.mkAuctionStatus AS.bidding 0 45)
    AS.initial.

(** The scenario of the specification: 42 displayed at t = 0, then
    three ticks. *)
Definition AS_at_39 : AS.State :=
  AS.run [AS.PollResolved 0 (AS.mkAuctionStatus AS.bidding 42 87);
          AS.CountdownTick; AS.CountdownTick; AS.CountdownTick] AS.initial.

(** A first bidding sample of 1 at t = 0: 1 is displayed and the
    interval is installed. *)
Definition AS_at_one : AS.State :=
  AS.fetchStatus_resolved 0 (AS.mkAuctionStatus AS.bidding 1 46) AS.initial.

(** A first bidding sample of 42 at t = 0. *)
Definition AS_at_42 : AS.State :=
  AS.fetchStatus_resolved 0 (AS.mkAuctionStatus AS.bidding 42 87)
    AS.initial.

(** A closing sample at t = 10000 that reports 0 seconds to the round
    start. *)
Definition AS_closing_at_zero : AS.State :=
  AS.fetchStatus_resolved 10000 (AS.mkAuctionStatus AS.closing 0 0)
    AS.initial.

(** A controller is reported at t = 1000 with 30 seconds left. *)
Definition ELC_synced : ELC.State :=
  ELC.fetchController_resolved 1000
    (ELC.mkExpressLaneController (Some "0xA11CE"%string) 30) ELC.initial.

(** A controller is reported at t = 1000 with 0 seconds left. *)
Definition ELC_at_zero : ELC.State :=
  ELC.fetchController_resolved 1000
    (ELC.mkExpressLaneController (Some "0xA11CE"%string) 0) ELC.initial.

End Scenario.

(** ** Text shown by the panels *)

Module Format.

(** [n.toString()] of an integer [n] (below 10^21 in magnitude, where
    JavaScript prints every digit). *)
Definition toString (z : Z) : string :=
  DecimalString.NilZero.string_of_int (Z.to_int z).

(** [n] copies of the character [c]. *)
Fixpoint replicate (n : nat) (c : ascii) : string :=
  match n with
  | O => EmptyString
  | S k => String c (replicate k c)
  end.

(** [s.padStart(targetLength, c)] for a pad string of one character. *)
Definition padStart (targetLength : nat) (c : ascii) (s : string) : string :=
  (replicate (targetLength - String.length s) c ++ s)%string.

(** [formatTime], the same function in both countdown panels. *)
Definition formatTime (seconds : Z) : string :=
  if seconds <=? 0 then "00:00"%string
  else
    let minutes := seconds / 60 in
    let secs := Z.rem seconds 60 in
    (padStart 2 "0" (toString minutes) ++ ":"
     ++ padStart 2 "0" (toString secs))%string.

(** The index that [slice] makes of an argument: a negative argument
    counts from the end, and the result is clamped to [0, len]. *)
Definition relativeIndex (len i : Z) : Z :=
  if i <? 0 then Z.max (len + i) 0 else Z.min i len.

(** [s.slice(start, end)]; [end_ = None] when the argument is omitted. *)
Definition slice (s : string) (start : Z) (end_ : option Z) : string :=
  let len := Z.of_nat (String.length s) in
  let from := relativeIndex len start in
  let to := match end_ with
            | None => len
            | Some e => relativeIndex len e
            end in
  substring (Z.to_nat from) (Z.to_nat (Z.max (to - from) 0)) s.

(** [formatAddress]: the first 6 and the last 4 characters. *)
Definition formatAddress (address : string) : string :=
  (slice address 0 (Some 6) ++ "..." ++ slice address (-4) None)%string.

(** [getTimeSinceReceived], evaluated at time [now]. *)
Definition getTimeSinceReceived (now timestamp : Z) : string :=
  let seconds := (now - timestamp) / 1000 in
  if seconds <? 60 then (toString seconds ++ "s ago")%string
  else
    let minutes := seconds / 60 in
    if minutes <? 60 then (toString minutes ++ "m ago")%string
    else
      let hours := minutes / 60 in
      (toString hours ++ "h ago")%string.

(** [getPhaseColor]. *)
Definition getPhaseColor (phase : AS.Phase) : string :=
  match phase with
  | AS.bidding => "bg-green-500/20 text-green-400 border-green-500/30"
  | AS.closing => "bg-yellow-500/20 text-yellow-400 border-yellow-500/30"
  | AS.resolving => "bg-blue-500/20 text-blue-400 border-blue-500/30"
  | AS.active => "bg-[#ff5233]/20 text-[#ff5233] border-[#ff5233]/30"
  | AS.unknown => "bg-[#4a4a4a]/20 text-[#aaaaaa] border-[#4a4a4a]/30"
  end.

(** [getPhaseLabel]. *)
Definition getPhaseLabel (phase : AS.Phase) : string :=
  match phase with
  | AS.bidding => "› ACCEPTING BIDS"
  | AS.closing => "› AUCTION CLOSING"
  | AS.resolving => "› RESOLVING"
  | AS.active => "› ROUND ACTIVE"
  | AS.unknown => "› UNKNOWN"
  end.

(** The character of the decimal digit [d]. *)
Definition digit (d : Z) : ascii := ascii_of_nat (48 + Z.to_nat d).

End Format.

(** ** What the panels render *)

Module View.

(** [error ? ... : ...] on a [string | null]: the message when it is
    truthy. *)
Definition shownError (error : option string) : option string :=
  match error with
  | Some m => if String.eqb m EmptyString then None else Some m
  | None => None
  end.

(** The branches of the status panel. *)
Inductive AuctionStatusView :=
| ASLoading
| ASError (message : string)
| ASStatus (label color : string) (auctionClosesIn roundStartsIn : option string)
| ASNoData.

(** The JSX of [AuctionStatus], reduced to the branch taken and the
    texts that depend on the state. *)
Definition renderAuctionStatus (st : AS.State) : AuctionStatusView :=
  if AS.isInitialLoad st && AS.loading st then ASLoading
  else
    match shownError (AS.error st) with
    | Some m => ASError m
    | None =>
      match AS.status st with
      | Some s =>
        ASStatus
          (Format.getPhaseLabel (AS.currentPhase s))
          (Format.getPhaseColor (AS.currentPhase s))
          (match AS.currentPhase s, AS.localCountdown st with
           | AS.bidding, Some c => Some (Format.formatTime c)
           | _, _ => None
           end)
          (match AS.currentPhase s, AS.localRoundStartCountdown st with
           | AS.closing, Some c | AS.resolving, Some c =>
             Some (Format.formatTime c)
           | _, _ => None
           end)
      | None => ASNoData
      end
    end.

(** The branches of the controller panel. *)
Inductive ControllerView :=
| ELCLoading
| ELCError (message : string)
| ELCController (address timeRemaining : string)
| ELCNoActiveController
| ELCNoData.

(** [localTimeRemaining ?? controller.timeRemainingInRound]. *)
Definition shownTimeRemaining (st : ELC.State)
  (info : ELC.ExpressLaneController) : Z :=
  match ELC.localTimeRemaining st with
  | Some v => v
  | None => ELC.timeRemainingInRound info
  end.

(** The JSX of [ExpressLaneController], reduced in the same way. *)
Definition renderController (st : ELC.State) : ControllerView :=
  if ELC.isInitialLoad st && ELC.loading st then ELCLoading
  else
    match shownError (ELC.error st) with
    | Some m => ELCError m
    | None =>
      match ELC.controller st with
      | Some info =>
        match ELC.currentController info with
        | Some a =>
          if String.eqb a EmptyString then ELCNoActiveController
          else ELCController (Format.formatAddress a)
                 (Format.formatTime (shownTimeRemaining st info))
        | None => ELCNoActiveController
        end
      | None => ELCNoData
      end
    end.

(** One card of the transaction list. *)
Record Card := mkCard {
  cardTx : STX.TimeboostedTransaction;
  cardIsNew : bool;
  cardAge : string
}.

(** The branches of the live feed below its header. *)
Inductive FeedView :=
| FeedError (message : string)
| FeedList (cards : list Card)
| FeedWatching
| FeedIdle.

(** The JSX of [StreamTimeboostedTxsComponent] below the header, rendered
    at time [now]. *)
Definition renderFeed (now : Z) (st : STX.State) : FeedView :=
  match shownError (STX.error st) with
  | Some m => FeedError m
  | None =>
    match STX.transactions st with
    | _ :: _ =>
      FeedList
        (map (fun e =>
                mkCard (STX.tx e) (STX.isNew now e)
                  (Format.getTimeSinceReceived now (STX.timestamp e)))
           (STX.transactions st))
    | [] => if STX.isStreaming st then FeedWatching else FeedIdle
    end
  end.


End View.

(** ** Runs of the live feed *)

Module Feed.

(** What can happen to a mounted feed. *)
Inductive Event :=
| Start (thrown : option (option string))
| Transaction (now : Z) (t : STX.TimeboostedTransaction)
| Error (message : string)
| Stop
| Reset.

Definition step (st : STX.State) (e : Event) : STX.State :=
  match e with
  | Start thrown => STX.startStreaming thrown st
  | Transaction now t => STX.onTransaction now t st
  | Error message => STX.onError message st
  | Stop => STX.stopStreaming st
  | Reset => STX.resetComponent st
  end.

Definition run (es : list Event) (st : STX.State) : STX.State :=
  fold_left step es st.

(** The events that empty the buffer: a start and a reset. *)
Definition restarts (e : Event) : bool :=
  match e with
  | Start _ | Reset => true
  | Transaction _ _ | Error _ | Stop => false
  end.

End Feed.

(** ** Invariants of the components, as propositions *)

Module Invariant.

(** An interval of the status panel is installed only while its
    countdown is displayed. *)
Definition AS_installed_shown (st : AS.State) : Prop :=
  (AS.countdownIntervalRef st = true -> AS.localCountdown st <> None)
  /\ (AS.roundStartIntervalRef st = true ->
      AS.localRoundStartCountdown st <> None).

(** The same for the controller panel. *)
Definition ELC_installed_shown (st : ELC.State) : Prop :=
  ELC.countdownIntervalRef st = true -> ELC.localTimeRemaining st <> None.

(** A displayed countdown is the countdown of the phase of the last
    status. *)
Definition countdown_matches_phase (st : AS.State) : Prop :=
  (AS.localCountdown st <> None ->
   exists s, AS.status st = Some s /\ AS.currentPhase s = AS.bidding)
  /\ (AS.localRoundStartCountdown st <> None ->
      exists s, AS.status st = Some s
                /\ (AS.currentPhase s = AS.closing
                    \/ AS.currentPhase s = AS.resolving)).


(** The displayed countdowns of the status panel are not negative. *)
Definition AS_nonnegative (st : AS.State) : Prop :=
  (forall v, AS.localCountdown st = Some v -> 0 <= v)
  /\ (forall v, AS.localRoundStartCountdown st = Some v -> 0 <= v).

(** The displayed countdown of the controller panel is not negative. *)
Definition ELC_nonnegative (st : ELC.State) : Prop :=
  forall v, ELC.localTimeRemaining st = Some v -> 0 <= v.

End Invariant.

(** ** Kinds of events *)

Module Samples.

(** Is the event a resolved status poll? *)
Definition AS_isSample (e : AS.Event) : bool :=
  match e with
  | AS.PollResolved _ _ => true
  | _ => false
  end.

(** Is the event a resolved controller poll? *)
Definition ELC_isSample (e : ELC.Event) : bool :=
  match e with
  | ELC.PollResolved _ _ => true
  | _ => false
  end.

(** The times reported by a resolved status poll are not negative. *)
Definition AS_nonnegative (e : AS.Event) : bool :=
  match e with
  | AS.PollResolved _ s =>
    (0 <=? AS.timeUntilAuctionCloses s) && (0 <=? AS.timeUntilRoundStarts s)
  | _ => true
  end.

(** The time reported by a resolved controller poll is not negative. *)
Definition ELC_nonnegative (e : ELC.Event) : bool :=
  match e with
  | ELC.PollResolved _ info => 0 <=? ELC.timeRemainingInRound info
  | _ => true
  end.

End Samples.

(** * Properties *)

Import AuctionStatusComponent(Phase, bidding, closing, resolving, active, unknown).

(** ** The resync test *)

Section ResyncTest.

Variables (local : option Z) (elapsed sample : Z).

Lemma resync_true_iff :
  Countdown.resync local elapsed sample = true
  <-> Policy.coded local elapsed sample.
Proof.
  unfold Countdown.resync, Policy.coded, Policy.stated.
  rewrite !orb_true_iff, !Z.gtb_gt.
  destruct local as [v|]; simpl.
  - rewrite Z.eqb_eq. split.
    + intros [[Hz | He] | Hd].
      * left. now subst.
      * right. right. left. exact He.
      * right. right. right. exists v. split; [reflexivity | exact Hd].
    + intros [Hz | [Hn | [He | [w [Hw Hd]]]]].
      * left. left. congruence.
      * discriminate.
      * left. right. exact He.
      * right. congruence.
  - split; [intros _; right; left; reflexivity | intros _; left; left; reflexivity].
Qed.

Lemma resync_false_iff :
  Countdown.resync local elapsed sample = false
  <-> ~ Policy.coded local elapsed sample.
Proof.
  rewrite <- resync_true_iff.
  destruct (Countdown.resync local elapsed sample); split; congruence.
Qed.

End ResyncTest.

(** ** What one resolved poll does to each countdown *)

(** Split on the outcome of every resync test of the goal. *)
Ltac case_resync :=
  repeat match goal with
         | |- context [Countdown.resync ?a ?b ?c] =>
           destruct (Countdown.resync a b c)
         end;
  try reflexivity.

Section ResolvedPoll.

Variable now : Z.

Lemma AS_resolved_localCountdown (s : AS.AuctionStatus) (st : AS.State) :
  AS.localCountdown (AS.fetchStatus_resolved now s st)
  = match AS.currentPhase s with
    | bidding =>
      if Countdown.resync (AS.localCountdown st) (now - AS.lastSyncTimeRef st)
           (AS.timeUntilAuctionCloses s)
      then Some (AS.timeUntilAuctionCloses s)
      else AS.localCountdown st
    | _ => None
    end.
Proof.
  unfold AS.fetchStatus_resolved, AS.statusEffect. simpl.
  destruct (AS.currentPhase s); simpl; try reflexivity.
  all: case_resync.
Qed.

Lemma AS_resolved_localRoundStartCountdown
  (s : AS.AuctionStatus) (st : AS.State) :
  AS.localRoundStartCountdown (AS.fetchStatus_resolved now s st)
  = match AS.currentPhase s with
    | closing | resolving =>
      if Countdown.resync (AS.localRoundStartCountdown st)
           (now - AS.lastSyncTimeRef st) (AS.timeUntilRoundStarts s)
      then Some (AS.timeUntilRoundStarts s)
      else AS.localRoundStartCountdown st
    | _ => None
    end.
Proof.
  unfold AS.fetchStatus_resolved, AS.statusEffect. simpl.
  destruct (AS.currentPhase s); simpl; try reflexivity.
  all: case_resync.
Qed.

Lemma AS_resolved_lastSyncTimeRef (s : AS.AuctionStatus) (st : AS.State) :
  AS.lastSyncTimeRef (AS.fetchStatus_resolved now s st) = now.
Proof.
  unfold AS.fetchStatus_resolved, AS.statusEffect. simpl.
  destruct (AS.currentPhase s); simpl; try reflexivity.
  all: case_resync.
Qed.

Lemma ELC_resolved_localTimeRemaining
  (info : ELC.ExpressLaneController) (st : ELC.State) :
  ELC.localTimeRemaining (ELC.fetchController_resolved now info st)
  = if ELC.noController (Some info) then None
    else if Countdown.resync (ELC.localTimeRemaining st)
              (now - ELC.lastSyncTimeRef st) (ELC.timeRemainingInRound info)
         then Some (ELC.timeRemainingInRound info)
         else ELC.localTimeRemaining st.
Proof.
  unfold ELC.fetchController_resolved, ELC.controllerEffect. simpl.
  destruct (JS.not_string (ELC.currentController info)); simpl;
    [reflexivity |].
  case_resync.
Qed.

Lemma ELC_resolved_lastSyncTimeRef
  (info : ELC.ExpressLaneController) (st : ELC.State) :
  ELC.lastSyncTimeRef (ELC.fetchController_resolved now info st)
  = if ELC.noController (Some info) then ELC.lastSyncTimeRef st else now.
Proof.
  unfold ELC.fetchController_resolved, ELC.controllerEffect. simpl.
  destruct (JS.not_string (ELC.currentController info)); simpl;
    [reflexivity |].
  case_resync.
Qed.

End ResolvedPoll.

(** ** Resync policy *)

Section ResyncPolicy.

Variable now : Z.

Lemma follows_resync (before : option Z) (elapsed sample : Z) :
  Policy.follows Policy.coded before
    (if Countdown.resync before elapsed sample then Some sample else before)
    elapsed sample.
Proof.
  split; intros H.
  - apply resync_true_iff in H. now rewrite H.
  - apply resync_false_iff in H. now rewrite H.
Qed.

Lemma AS_bidding_follows (s : AS.AuctionStatus) (st : AS.State) :
  AS.currentPhase s = bidding ->
  Policy.follows Policy.coded (AS.localCountdown st)
    (AS.localCountdown (AS.fetchStatus_resolved now s st))
    (now - AS.lastSyncTimeRef st) (AS.timeUntilAuctionCloses s).
Proof.
  intros Hp. rewrite AS_resolved_localCountdown, Hp. apply follows_resync.
Qed.

Lemma AS_roundStart_follows (s : AS.AuctionStatus) (st : AS.State) :
  AS.currentPhase s = closing \/ AS.currentPhase s = resolving ->
  Policy.follows Policy.coded (AS.localRoundStartCountdown st)
    (AS.localRoundStartCountdown (AS.fetchStatus_resolved now s st))
    (now - AS.lastSyncTimeRef st) (AS.timeUntilRoundStarts s).
Proof.
  intros [Hp | Hp]; rewrite AS_resolved_localRoundStartCountdown, Hp;
    apply follows_resync.
Qed.

Lemma ELC_follows (info : ELC.ExpressLaneController) (st : ELC.State) :
  ELC.noController (Some info) = false ->
  Policy.follows Policy.coded (ELC.localTimeRemaining st)
    (ELC.localTimeRemaining (ELC.fetchController_resolved now info st))
    (now - ELC.lastSyncTimeRef st) (ELC.timeRemainingInRound info).
Proof.
  intros Hc. rewrite ELC_resolved_localTimeRemaining, Hc.
  apply follows_resync.
Qed.

End ResyncPolicy.

(** C1, as stated, fails: with 0 displayed, 1000 ms after the last resync,
    a bidding sample of 2 meets none of the three stated triggers, yet the
    call replaces the displayed 0 by 2. *)
Lemma C1_stated_policy_fails_at_zero :
  AS.localCountdown Scenario.AS_at_zero = Some 0
  /\ 11000 - AS.lastSyncTimeRef Scenario.AS_at_zero = 1000
  /\ AS.localCountdown
       (AS.fetchStatus_resolved 11000 (AS.mkAuctionStatus bidding 2 47)
          Scenario.AS_at_zero) = Some 2
  /\ ~ Policy.follows Policy.stated (AS.localCountdown Scenario.AS_at_zero)
         (AS.localCountdown
            (AS.fetchStatus_resolved 11000 (AS.mkAuctionStatus bidding 2 47)
               Scenario.AS_at_zero))
         (11000 - AS.lastSyncTimeRef Scenario.AS_at_zero) 2.
Proof.
  repeat split; try reflexivity.
  intros [_ Hkeep].
  assert (Hnone : ~ Policy.stated (AS.localCountdown Scenario.AS_at_zero)
                      (11000 - AS.lastSyncTimeRef Scenario.AS_at_zero) 2).
  { intros [Ha | [Hb | [v [Hv Hd]]]].
    - discriminate Ha.
    - vm_compute in Hb. discriminate Hb.
    - vm_compute in Hv. injection Hv as <-. vm_compute in Hd. discriminate Hd. }
  specialize (Hkeep Hnone). discriminate Hkeep.
Qed.

(** C1 (amended).  A resolved poll replaces the displayed countdown by the
    sample iff (a) nothing is displayed or the displayed value is 0,
    (b) more than 3000 ms passed since the last resync, or (c) the
    displayed value and the sample differ by more than 2; when none holds
    the displayed value is unchanged.  This holds for the bidding
    countdown on a bidding sample, for the round-start countdown on a
    closing or resolving sample, and for the controller countdown when a
    controller is present. *)
Theorem C1_resync_policy (now : Z) :
  (forall s st,
     AS.currentPhase s = bidding ->
     Policy.follows Policy.coded (AS.localCountdown st)
       (AS.localCountdown (AS.fetchStatus_resolved now s st))
       (now - AS.lastSyncTimeRef st) (AS.timeUntilAuctionCloses s))
  /\ (forall s st,
       AS.currentPhase s = closing \/ AS.currentPhase s = resolving ->
       Policy.follows Policy.coded (AS.localRoundStartCountdown st)
         (AS.localRoundStartCountdown (AS.fetchStatus_resolved now s st))
         (now - AS.lastSyncTimeRef st) (AS.timeUntilRoundStarts s))
  /\ (forall info st,
       ELC.noController (Some info) = false ->
       Policy.follows Policy.coded (ELC.localTimeRemaining st)
         (ELC.localTimeRemaining (ELC.fetchController_resolved now info st))
         (now - ELC.lastSyncTimeRef st) (ELC.timeRemainingInRound info)).
Proof.
  split; [| split].
  - intros s st. apply AS_bidding_follows.
  - intros s st. apply AS_roundStart_follows.
  - intros info st. apply ELC_follows.
Qed.

(** The scenario of the specification: 39 displayed, a sample of 20
    arrives at t = 3000 and the display resets to 20. *)
Lemma C1_resync_policy_witness :
  AS.localCountdown Scenario.AS_at_39 = Some 39
  /\ AS.localCountdown
       (AS.fetchStatus_resolved 3000 (AS.mkAuctionStatus bidding 20 65)
          Scenario.AS_at_39) = Some 20.
Proof.
  split; [reflexivity |].
  destruct (C1_resync_policy 3000) as [Hbid _].
  destruct (Hbid (AS.mkAuctionStatus bidding 20 65) Scenario.AS_at_39 eq_refl)
    as [Hyes _].
  apply Hyes. right. right. right. exists 39.
  split; [reflexivity | reflexivity].
Defined.

(** C10.  While 0 is displayed, the resync test passes whatever the
    elapsed time and the sample: a resolved poll displays the sample's
    value, for each of the three countdowns on its own samples. *)
Theorem C10_zero_displayed_is_resynced (now : Z) :
  (forall s st,
     AS.currentPhase s = bidding ->
     AS.localCountdown st = Some 0 ->
     AS.localCountdown (AS.fetchStatus_resolved now s st)
     = Some (AS.timeUntilAuctionCloses s))
  /\ (forall s st,
       AS.currentPhase s = closing \/ AS.currentPhase s = resolving ->
       AS.localRoundStartCountdown st = Some 0 ->
       AS.localRoundStartCountdown (AS.fetchStatus_resolved now s st)
       = Some (AS.timeUntilRoundStarts s))
  /\ (forall info st,
       ELC.noController (Some info) = false ->
       ELC.localTimeRemaining st = Some 0 ->
       ELC.localTimeRemaining (ELC.fetchController_resolved now info st)
       = Some (ELC.timeRemainingInRound info)).
Proof.
  split; [| split].
  - intros s st Hp Hz. apply (AS_bidding_follows now s st Hp).
    left. exact Hz.
  - intros s st Hp Hz. apply (AS_roundStart_follows now s st Hp).
    left. exact Hz.
  - intros info st Hc Hz. apply (ELC_follows now info st Hc).
    left. exact Hz.
Qed.

(** 0 is displayed since t = 10000; at t = 11000 a sample of 1 (within
    3000 ms, within the tolerance of 2) is displayed all the same. *)
Lemma C10_zero_displayed_is_resynced_witness :
  AS.localCountdown
    (AS.fetchStatus_resolved 11000 (AS.mkAuctionStatus bidding 1 46)
       Scenario.AS_at_zero) = Some 1
  /\ AS.localRoundStartCountdown
       (AS.fetchStatus_resolved 11000 (AS.mkAuctionStatus resolving 0 1)
          Scenario.AS_closing_at_zero) = Some 1
  /\ ELC.localTimeRemaining
       (ELC.fetchController_resolved 2000
          (ELC.mkExpressLaneController (Some "0xA11CE"%string) 2)
          Scenario.ELC_at_zero) = Some 2.
Proof.
  destruct (C10_zero_displayed_is_resynced 11000) as [Hbid [Hround _]].
  destruct (C10_zero_displayed_is_resynced 2000) as [_ [_ Hctl]].
  split; [| split].
  - apply (Hbid (AS.mkAuctionStatus bidding 1 46) Scenario.AS_at_zero);
      reflexivity.
  - apply (Hround (AS.mkAuctionStatus resolving 0 1)
             Scenario.AS_closing_at_zero);
      [right; reflexivity | reflexivity].
  - apply (Hctl (ELC.mkExpressLaneController (Some "0xA11CE"%string) 2)
             Scenario.ELC_at_zero);
      reflexivity.
Defined.

(** ** The time of the last resync *)

(** C4, as stated, fails: the controller panel synced at t = 1000; the
    poll resolved at t = 6000 reports no controller, and the effect
    returns before it stores the time. *)
Lemma C4_no_controller_keeps_old_sync_time :
  ELC.lastSyncTimeRef Scenario.ELC_synced = 1000
  /\ ELC.lastSyncTimeRef
       (ELC.fetchController_resolved 6000
          (ELC.mkExpressLaneController None 30) Scenario.ELC_synced) = 1000
  /\ ELC.lastSyncTimeRef
       (ELC.fetchController_resolved 6000
          (ELC.mkExpressLaneController None 30) Scenario.ELC_synced) <> 6000.
Proof.
  repeat split; try reflexivity. discriminate.
Qed.

(** C4 (amended).  A resolved status poll stores the current time as the
    time of the last resync in every phase, and a resolved controller poll
    does so whenever a controller is present, whether or not the displayed
    value was replaced.  A controller poll that reports no controller
    clears the displayed value and leaves the stored time as it was. *)
Theorem C4_last_sync_time (now : Z) :
  (forall s st, AS.lastSyncTimeRef (AS.fetchStatus_resolved now s st) = now)
  /\ (forall info st,
       ELC.noController (Some info) = false ->
       ELC.lastSyncTimeRef (ELC.fetchController_resolved now info st) = now)
  /\ (forall info st,
       ELC.noController (Some info) = true ->
       ELC.lastSyncTimeRef (ELC.fetchController_resolved now info st)
       = ELC.lastSyncTimeRef st
       /\ ELC.localTimeRemaining (ELC.fetchController_resolved now info st)
          = None).
Proof.
  split; [| split].
  - intros s st. apply AS_resolved_lastSyncTimeRef.
  - intros info st Hc. now rewrite ELC_resolved_lastSyncTimeRef, Hc.
  - intros info st Hc.
    now rewrite ELC_resolved_lastSyncTimeRef, ELC_resolved_localTimeRemaining, Hc.
Qed.

(** A sample of 29 one second after the resync to 30 is suppressed (30
    stays displayed), and the stored time still moves to t = 2000. *)
Lemma C4_last_sync_time_witness :
  ELC.localTimeRemaining
    (ELC.fetchController_resolved 2000
       (ELC.mkExpressLaneController (Some "0xA11CE"%string) 29)
       Scenario.ELC_synced) = Some 30
  /\ ELC.lastSyncTimeRef
       (ELC.fetchController_resolved 2000
          (ELC.mkExpressLaneController (Some "0xA11CE"%string) 29)
          Scenario.ELC_synced) = 2000
  /\ ELC.lastSyncTimeRef
       (ELC.fetchController_resolved 6000
          (ELC.mkExpressLaneController (Some EmptyString) 29)
          Scenario.ELC_synced) = ELC.lastSyncTimeRef Scenario.ELC_synced.
Proof.
  destruct (C4_last_sync_time 2000) as [_ [Hsome _]].
  destruct (C4_last_sync_time 6000) as [_ [_ Hnone]].
  split; [reflexivity | split].
  - apply Hsome. reflexivity.
  - apply Hnone. reflexivity.
Defined.

(** ** Local ticking *)

Section Ticks.

Lemma ticks_None (n : nat) : Countdown.ticks n None = None.
Proof. induction n as [| k IH]; simpl; [reflexivity | exact IH]. Qed.

Lemma ticks_add (a b : nat) (local : option Z) :
  Countdown.ticks (a + b) local = Countdown.ticks b (Countdown.ticks a local).
Proof.
  revert local. induction a as [| k IH]; intros local; simpl;
    [reflexivity | apply IH].
Qed.

Lemma tickUpdater_positive (p : Z) :
  0 < p -> Countdown.tickUpdater (Some p) = Some (p - 1).
Proof.
  intros Hp. simpl. destruct (Z.leb_spec p 0); [lia | reflexivity].
Qed.

Lemma tickUpdater_finished (p : Z) :
  p <= 0 -> Countdown.tickUpdater (Some p) = None.
Proof.
  intros Hp. simpl. destruct (Z.leb_spec p 0); [reflexivity | lia].
Qed.

Lemma ticks_present (n : nat) :
  forall V, Z.of_nat n <= V ->
    Countdown.ticks n (Some V) = Some (V - Z.of_nat n).
Proof.
  induction n as [| k IH]; intros V Hle.
  - simpl. f_equal. lia.
  - change (Countdown.ticks (S k) (Some V))
      with (Countdown.ticks k (Countdown.tickUpdater (Some V))).
    rewrite tickUpdater_positive by lia.
    rewrite IH by lia. f_equal. lia.
Qed.

Lemma ticks_absent (n : nat) (V : Z) :
  0 <= V -> V < Z.of_nat n -> Countdown.ticks n (Some V) = None.
Proof.
  intros H0 Hlt.
  replace n with (Z.to_nat V + S (n - S (Z.to_nat V)))%nat by lia.
  rewrite ticks_add, ticks_present by lia.
  change (Countdown.ticks (S ?k) ?x)
    with (Countdown.ticks k (Countdown.tickUpdater x)).
  rewrite tickUpdater_finished by lia. apply ticks_None.
Qed.

End Ticks.

(** The interval of a component, iterated: as long as the interval is
    installed or nothing is displayed, [n] firings act on the displayed
    value as [n] applications of the updater. *)
Section ComponentTicks.

Variable State : Type.
Variable local : State -> option Z.
Variable ref : State -> bool.
Variable tick : State -> State.

Hypothesis tick_view :
  forall st, (local (tick st), ref (tick st))
             = Countdown.timedTick (local st, ref st).

Let ticking (st : State) : Prop := Countdown.ticking (local st, ref st).

Lemma tick_ticking (st : State) :
  ticking st ->
  local (tick st) = Countdown.tickUpdater (local st) /\ ticking (tick st).
Proof.
  unfold ticking, Countdown.ticking. simpl.
  intros Ht. pose proof (tick_view st) as Hv.
  unfold Countdown.timedTick in Hv. simpl in Hv.
  destruct (ref st) eqn:Hr; injection Hv as Hl Hf.
  - split; [exact Hl |].
    rewrite Hf, Hl. unfold Countdown.intervalEffect.
    destruct (local st) as [v |]; simpl.
    + destruct (v <=? 0); simpl; [right | left]; reflexivity.
    + right. reflexivity.
  - destruct Ht as [Ht | Ht]; [discriminate Ht |].
    rewrite Hl, Ht. split; [reflexivity | right; reflexivity].
Qed.

Lemma iter_tick_ticks (n : nat) (st : State) :
  ticking st ->
  local (Nat.iter n tick st) = Countdown.ticks n (local st)
  /\ ticking (Nat.iter n tick st).
Proof.
  revert st. induction n as [| k IH]; intros st Ht.
  - simpl. split; [reflexivity | exact Ht].
  - rewrite Nat.iter_succ_r.
    destruct (tick_ticking st Ht) as [Hl Ht'].
    destruct (IH (tick st) Ht') as [IHl IHt].
    split; [| exact IHt].
    rewrite IHl, Hl. reflexivity.
Qed.

Lemma ticking_stops (st : State) :
  local st <> None -> local (tick st) = None -> ref (tick st) = false.
Proof.
  intros Hs Hn. pose proof (tick_view st) as Hv.
  unfold Countdown.timedTick in Hv. simpl in Hv.
  destruct (ref st) eqn:Hr; injection Hv as Hl Hf; [| exact Hf].
  rewrite Hf, <- Hl, Hn. unfold Countdown.intervalEffect.
  destruct (local st); [reflexivity | congruence].
Qed.

End ComponentTicks.

Lemma AS_countdownTick_view (st : AS.State) :
  (AS.localCountdown (AS.countdownTick st),
   AS.countdownIntervalRef (AS.countdownTick st))
  = Countdown.timedTick (AS.localCountdown st, AS.countdownIntervalRef st).
Proof.
  unfold AS.countdownTick, Countdown.timedTick. simpl.
  destruct (AS.countdownIntervalRef st) eqn:Hr; simpl; now rewrite ?Hr.
Qed.

Lemma AS_roundStartTick_view (st : AS.State) :
  (AS.localRoundStartCountdown (AS.roundStartTick st),
   AS.roundStartIntervalRef (AS.roundStartTick st))
  = Countdown.timedTick
      (AS.localRoundStartCountdown st, AS.roundStartIntervalRef st).
Proof.
  unfold AS.roundStartTick, Countdown.timedTick. simpl.
  destruct (AS.roundStartIntervalRef st) eqn:Hr; simpl; now rewrite ?Hr.
Qed.

Lemma ELC_countdownTick_view (st : ELC.State) :
  (ELC.localTimeRemaining (ELC.countdownTick st),
   ELC.countdownIntervalRef (ELC.countdownTick st))
  = Countdown.timedTick (ELC.localTimeRemaining st, ELC.countdownIntervalRef st).
Proof.
  unfold ELC.countdownTick, Countdown.timedTick. simpl.
  destruct (ELC.countdownIntervalRef st) eqn:Hr; simpl; now rewrite ?Hr.
Qed.

(** C2, as stated, fails: with 1 displayed, the one tick that decrements
    it to 0 leaves 0 displayed, not absent; it takes a second tick to clear
    the display. *)
Lemma C2_tick_to_zero_stays_present :
  AS.localCountdown Scenario.AS_at_one = Some 1
  /\ AS.countdownIntervalRef Scenario.AS_at_one = true
  /\ AS.localCountdown (AS.countdownTick Scenario.AS_at_one) = Some 0
  /\ Countdown.ticks 1 (Some 1) <> None
  /\ AS.localCountdown
       (AS.countdownTick (AS.countdownTick Scenario.AS_at_one)) = None.
Proof.
  repeat split; try reflexivity. discriminate.
Qed.

(** C2 (amended).  A tick on a displayed value greater than 0 decrements
    it by 1 and keeps it displayed, also when the result is 0; a tick on a
    displayed value of 0 or less clears it to absent.  So from a displayed
    V >= 0, N ticks with N <= V leave V - N displayed (0 after exactly V
    ticks) and any N > V ticks leave it absent (V + 1 ticks suffice).  The
    interval of each component, once installed, acts on its displayed
    value as these ticks. *)
Theorem C2_tick_countdown :
  (forall p, 0 < p -> Countdown.tickUpdater (Some p) = Some (p - 1))
  /\ (forall p, p <= 0 -> Countdown.tickUpdater (Some p) = None)
  /\ (forall V n,
       Z.of_nat n <= V ->
       Countdown.ticks n (Some V) = Some (V - Z.of_nat n))
  /\ (forall V n,
       0 <= V -> V < Z.of_nat n -> Countdown.ticks n (Some V) = None)
  /\ (forall st n,
       AS.countdownIntervalRef st = true ->
       AS.localCountdown (Nat.iter n AS.countdownTick st)
       = Countdown.ticks n (AS.localCountdown st))
  /\ (forall st n,
       AS.roundStartIntervalRef st = true ->
       AS.localRoundStartCountdown (Nat.iter n AS.roundStartTick st)
       = Countdown.ticks n (AS.localRoundStartCountdown st))
  /\ (forall st n,
       ELC.countdownIntervalRef st = true ->
       ELC.localTimeRemaining (Nat.iter n ELC.countdownTick st)
       = Countdown.ticks n (ELC.localTimeRemaining st)).
Proof.
  split; [exact tickUpdater_positive |].
  split; [exact tickUpdater_finished |].
  split; [intros V n; apply ticks_present |].
  split; [intros V n; apply ticks_absent |].
  split; [| split].
  - intros st n Hr.
    apply (iter_tick_ticks _ _ _ _ AS_countdownTick_view). left. exact Hr.
  - intros st n Hr.
    apply (iter_tick_ticks _ _ _ _ AS_roundStartTick_view). left. exact Hr.
  - intros st n Hr.
    apply (iter_tick_ticks _ _ _ _ ELC_countdownTick_view). left. exact Hr.
Qed.

(** 42 displayed: three ticks leave 39, 42 ticks leave 0 and 43 ticks
    leave nothing. *)
Lemma C2_tick_countdown_witness :
  AS.localCountdown (Nat.iter 3 AS.countdownTick Scenario.AS_at_42) = Some 39
  /\ Countdown.ticks 42 (Some 42) = Some 0
  /\ Countdown.ticks 43 (Some 42) = None.
Proof.
  destruct C2_tick_countdown as [_ [_ [Hle [Hgt [Hcomp _]]]]].
  split; [| split].
  - rewrite (Hcomp Scenario.AS_at_42 3%nat eq_refl).
    apply (Hle 42 3%nat). simpl. lia.
  - apply (Hle 42 42%nat). simpl. lia.
  - apply (Hgt 42 43%nat); simpl; lia.
Defined.

(** ** The two countdowns of the status panel exclude each other *)

Section Exclusion.

Lemma tickUpdater_None_inv (local : option Z) :
  local = None -> Countdown.tickUpdater local = None.
Proof. intros ->. reflexivity. Qed.

Lemma exclusive_resolved (now : Z) (s : AS.AuctionStatus) (st : AS.State) :
  AS.exclusive (AS.fetchStatus_resolved now s st).
Proof.
  unfold AS.exclusive.
  rewrite AS_resolved_localCountdown, AS_resolved_localRoundStartCountdown.
  destruct (AS.currentPhase s); auto.
Qed.

Lemma exclusive_countdownTick (st : AS.State) :
  AS.exclusive st -> AS.exclusive (AS.countdownTick st).
Proof.
  unfold AS.exclusive, AS.countdownTick.
  destruct (AS.countdownIntervalRef st); [| trivial]. simpl.
  intros [H | H]; [left; now apply tickUpdater_None_inv | right; exact H].
Qed.

Lemma exclusive_roundStartTick (st : AS.State) :
  AS.exclusive st -> AS.exclusive (AS.roundStartTick st).
Proof.
  unfold AS.exclusive, AS.roundStartTick.
  destruct (AS.roundStartIntervalRef st); [| trivial]. simpl.
  intros [H | H]; [left; exact H | right; now apply tickUpdater_None_inv].
Qed.

Lemma exclusive_step (st : AS.State) (e : AS.Event) :
  AS.exclusive st -> AS.exclusive (AS.step st e).
Proof.
  destruct e; simpl.
  - trivial.
  - intros _. apply exclusive_resolved.
  - trivial.
  - apply exclusive_countdownTick.
  - apply exclusive_roundStartTick.
Qed.

Lemma reachable_exclusive (st : AS.State) :
  AS.reachable st -> AS.exclusive st.
Proof.
  induction 1 as [| st e _ IH].
  - left. reflexivity.
  - now apply exclusive_step.
Qed.

Lemma reachable_run (es : list AS.Event) :
  forall st, AS.reachable st -> AS.reachable (AS.run es st).
Proof.
  induction es as [| e es IH]; intros st Hr; simpl.
  - exact Hr.
  - apply IH. now constructor.
Qed.

End Exclusion.

(** C5.  In every state reached from the mounted component by resolved
    and rejected polls and ticks of either interval, in any order, at most
    one of the two countdowns is displayed; and a sample of a phase other
    than bidding clears the bidding countdown, a sample of a phase other
    than closing and resolving clears the round-start countdown. *)
Theorem C5_countdowns_exclusive (st : AS.State) :
  AS.reachable st ->
  (AS.localCountdown st = None \/ AS.localRoundStartCountdown st = None)
  /\ (forall now s,
       AS.currentPhase s <> bidding ->
       AS.localCountdown (AS.fetchStatus_resolved now s st) = None)
  /\ (forall now s,
       AS.currentPhase s <> closing ->
       AS.currentPhase s <> resolving ->
       AS.localRoundStartCountdown (AS.fetchStatus_resolved now s st) = None).
Proof.
  intros Hr. split; [exact (reachable_exclusive st Hr) | split].
  - intros now s Hp. rewrite AS_resolved_localCountdown.
    destruct (AS.currentPhase s); congruence.
  - intros now s Hc Hv. rewrite AS_resolved_localRoundStartCountdown.
    destruct (AS.currentPhase s); congruence.
Qed.

(** With 39 displayed in the bidding countdown, nothing is displayed in
    the round-start countdown, and a closing sample clears the 39. *)
Lemma C5_countdowns_exclusive_witness :
  AS.localCountdown Scenario.AS_at_39 = Some 39
  /\ AS.localRoundStartCountdown Scenario.AS_at_39 = None
  /\ AS.localCountdown
       (AS.fetchStatus_resolved 3000 (AS.mkAuctionStatus closing 0 15)
          Scenario.AS_at_39) = None.
Proof.
  assert (Hr : AS.reachable Scenario.AS_at_39).
  { apply reachable_run. constructor. }
  destruct (C5_countdowns_exclusive Scenario.AS_at_39 Hr)
    as [[Hx | Hx] [Hbid _]].
  - discriminate Hx.
  - split; [reflexivity | split; [exact Hx |]].
    apply Hbid. discriminate.
Defined.


(** ** A failed poll *)

Section FailedPoll.

Lemma AS_reconciler_step (a b : AS.State) (e : AS.Event) :
  AS.reconciler a = AS.reconciler b ->
  AS.reconciler (AS.step a e) = AS.reconciler (AS.step b e).
Proof.
  destruct a, b. unfold AS.reconciler. simpl.
  intros H. injection H as -> -> -> -> -> ->.
  destruct e as [| now s | err | |]; simpl; try reflexivity.
  - unfold AS.fetchStatus_resolved, AS.statusEffect. simpl.
    destruct (AS.currentPhase s); simpl; case_resync.
  - unfold AS.countdownTick. simpl.
    match goal with |- context [if ?c then _ else _] => destruct c end;
      reflexivity.
  - unfold AS.roundStartTick. simpl.
    match goal with |- context [if ?c then _ else _] => destruct c end;
      reflexivity.
Qed.

Lemma AS_reconciler_run (es : list AS.Event) :
  forall a b,
    AS.reconciler a = AS.reconciler b ->
    AS.reconciler (AS.run es a) = AS.reconciler (AS.run es b).
Proof.
  induction es as [| e es IH]; intros a b H; simpl.
  - exact H.
  - apply IH. now apply AS_reconciler_step.
Qed.

Lemma ELC_reconciler_step (a b : ELC.State) (e : ELC.Event) :
  ELC.reconciler a = ELC.reconciler b ->
  ELC.reconciler (ELC.step a e) = ELC.reconciler (ELC.step b e).
Proof.
  destruct a, b. unfold ELC.reconciler. simpl.
  intros H. injection H as -> -> -> ->.
  destruct e as [| now info | err |]; simpl; try reflexivity.
  - unfold ELC.fetchController_resolved, ELC.controllerEffect. simpl.
    destruct (JS.not_string (ELC.currentController info)); simpl;
      case_resync.
  - unfold ELC.countdownTick. simpl.
    match goal with |- context [if ?c then _ else _] => destruct c end;
      reflexivity.
Qed.

Lemma ELC_reconciler_run (es : list ELC.Event) :
  forall a b,
    ELC.reconciler a = ELC.reconciler b ->
    ELC.reconciler (ELC.run es a) = ELC.reconciler (ELC.run es b).
Proof.
  induction es as [| e es IH]; intros a b H; simpl.
  - exact H.
  - apply IH. now apply ELC_reconciler_step.
Qed.

End FailedPoll.

(** C9.  A failed poll changes no cell of the reconciliation (last
    sample, displayed values, interval refs, time of the last resync), and
    whatever happens next acts on these cells as if the poll had not
    failed; in particular an installed interval keeps ticking the
    displayed value down from where it was. *)
Theorem C9_failed_poll_keeps_reconciler (err : option string) :
  (forall st es,
     AS.reconciler (AS.run es (AS.failedPoll err st))
     = AS.reconciler (AS.run es st))
  /\ (forall st es,
       ELC.reconciler (ELC.run es (ELC.failedPoll err st))
       = ELC.reconciler (ELC.run es st))
  /\ (forall st n,
       AS.countdownIntervalRef st = true ->
       AS.localCountdown (Nat.iter n AS.countdownTick (AS.failedPoll err st))
       = Countdown.ticks n (AS.localCountdown st))
  /\ (forall st n,
       ELC.countdownIntervalRef st = true ->
       ELC.localTimeRemaining
         (Nat.iter n ELC.countdownTick (ELC.failedPoll err st))
       = Countdown.ticks n (ELC.localTimeRemaining st)).
Proof.
  split; [| split; [| split]].
  - intros st es. apply AS_reconciler_run. reflexivity.
  - intros st es. apply ELC_reconciler_run. reflexivity.
  - intros st n Hr.
    destruct (iter_tick_ticks _ _ _ _ AS_countdownTick_view n
                (AS.failedPoll err st)) as [Hl _].
    + left. exact Hr.
    + exact Hl.
  - intros st n Hr.
    destruct (iter_tick_ticks _ _ _ _ ELC_countdownTick_view n
                (ELC.failedPoll err st)) as [Hl _].
    + left. exact Hr.
    + exact Hl.
Qed.

(** 42 is displayed; the next poll fails; three ticks later 39 is
    displayed, and the error is what the panel reports. *)
Lemma C9_failed_poll_keeps_reconciler_witness :
  AS.localCountdown
    (Nat.iter 3 AS.countdownTick
       (AS.failedPoll (Some "timeout"%string) Scenario.AS_at_42)) = Some 39
  /\ AS.error (AS.failedPoll (Some "timeout"%string) Scenario.AS_at_42)
     = Some "timeout"%string.
Proof.
  destruct (C9_failed_poll_keeps_reconciler (Some "timeout"%string))
    as [_ [_ [Htick _]]].
  split; [| reflexivity].
  rewrite (Htick Scenario.AS_at_42 3%nat eq_refl). reflexivity.
Defined.

(** ** The live feed *)

Section Feed.

Lemma firstn_cons_slice (A : Type) (k : nat) (x : A) (l : list A) :
  (k <= 20)%nat -> firstn k (x :: firstn 19 l) = firstn k (x :: l).
Proof.
  intros Hk. destruct k as [| j]; [reflexivity |].
  rewrite !firstn_cons, firstn_firstn. f_equal. f_equal. lia.
Qed.

Lemma onTransaction_buffer (now : Z) (t : STX.TimeboostedTransaction)
  (st : STX.State) :
  STX.transactions (STX.onTransaction now t st)
  = STX.mkTransactionWithTimestamp t now :: firstn 19 (STX.transactions st).
Proof. reflexivity. Qed.

Lemma onTransaction_totalCount (now : Z) (t : STX.TimeboostedTransaction)
  (st : STX.State) :
  STX.totalCount (STX.onTransaction now t st) = STX.totalCount st + 1.
Proof. reflexivity. Qed.

Lemma deliver_buffer (evs : list (Z * STX.TimeboostedTransaction)) :
  forall st,
    (List.length (STX.transactions st) <= 20)%nat ->
    STX.transactions (STX.deliver evs st)
    = firstn 20 (rev (STX.stamped evs) ++ STX.transactions st).
Proof.
  induction evs as [| e evs IH]; intros st Hlen.
  - change (STX.transactions st = firstn 20 (STX.transactions st)).
    symmetry. now apply firstn_all2.
  - change (STX.deliver (e :: evs) st)
      with (STX.deliver evs (STX.onTransaction (fst e) (snd e) st)).
    rewrite IH.
    + rewrite onTransaction_buffer.
      cbn [STX.stamped map rev]. rewrite <- app_assoc. cbn [app].
      rewrite !firstn_app. f_equal.
      apply firstn_cons_slice. lia.
    + rewrite onTransaction_buffer. cbn [List.length].
      pose proof (firstn_le_length 19 (STX.transactions st)). lia.
Qed.

Lemma deliver_totalCount (evs : list (Z * STX.TimeboostedTransaction)) :
  forall st,
    STX.totalCount (STX.deliver evs st)
    = STX.totalCount st + Z.of_nat (List.length evs).
Proof.
  induction evs as [| e evs IH]; intros st.
  - simpl. lia.
  - change (STX.deliver (e :: evs) st)
      with (STX.deliver evs (STX.onTransaction (fst e) (snd e) st)).
    rewrite IH, onTransaction_totalCount. simpl List.length. lia.
Qed.

Lemma deliver_from_empty (evs : list (Z * STX.TimeboostedTransaction))
  (st : STX.State) :
  STX.transactions st = [] ->
  STX.transactions (STX.deliver evs st) = firstn 20 (rev (STX.stamped evs))
  /\ List.length (STX.transactions (STX.deliver evs st)) = Nat.min 20 (List.length evs)
  /\ STX.transactions (STX.deliver evs st)
     = rev (skipn (List.length evs - 20) (STX.stamped evs)).
Proof.
  intros Hempty.
  assert (Hbuf : STX.transactions (STX.deliver evs st)
                 = firstn 20 (rev (STX.stamped evs))).
  { rewrite deliver_buffer by (rewrite Hempty; simpl; lia).
    now rewrite Hempty, app_nil_r. }
  assert (Hlen : List.length (STX.stamped evs) = List.length evs).
  { unfold STX.stamped. apply length_map. }
  split; [exact Hbuf | split].
  - now rewrite Hbuf, length_firstn, length_rev, Hlen.
  - now rewrite Hbuf, firstn_rev, Hlen.
Qed.

End Feed.

(** C3.  After a start (or a reset) of the feed and N delivered
    transactions, the buffer holds the min(20, N) most recently delivered
    ones, newest first: it is the reversed delivery sequence cut to 20,
    that is, the delivery sequence without its oldest N - 20 elements,
    reversed. *)
Theorem C3_buffer_newest_first_capped
  (evs : list (Z * STX.TimeboostedTransaction)) (st : STX.State) :
  let started := STX.deliver evs (STX.startStreaming None st) in
  let reset := STX.deliver evs (STX.resetComponent st) in
  (STX.transactions started = firstn 20 (rev (STX.stamped evs))
   /\ List.length (STX.transactions started) = Nat.min 20 (List.length evs)
   /\ STX.transactions started
      = rev (skipn (List.length evs - 20) (STX.stamped evs)))
  /\ (STX.transactions reset = firstn 20 (rev (STX.stamped evs))
      /\ List.length (STX.transactions reset) = Nat.min 20 (List.length evs)
      /\ STX.transactions reset
         = rev (skipn (List.length evs - 20) (STX.stamped evs))).
Proof.
  split; apply deliver_from_empty.
  - reflexivity.
  - unfold STX.resetComponent. destruct (STX.unwatchRef st); reflexivity.
Qed.

(** C6.  After a start (or a reset) of the feed and N delivered
    transactions the total-received counter is N, while the buffer length
    is min(20, N). *)
Theorem C6_total_count_is_number_delivered
  (evs : list (Z * STX.TimeboostedTransaction)) (st : STX.State) :
  let started := STX.deliver evs (STX.startStreaming None st) in
  let reset := STX.deliver evs (STX.resetComponent st) in
  STX.totalCount started = Z.of_nat (List.length evs)
  /\ STX.totalCount reset = Z.of_nat (List.length evs)
  /\ Z.of_nat (List.length (STX.transactions started))
     = Z.min 20 (STX.totalCount started).
Proof.
  assert (Hs : STX.totalCount (STX.deliver evs (STX.startStreaming None st))
               = Z.of_nat (List.length evs)).
  { rewrite deliver_totalCount. reflexivity. }
  cbv zeta. split; [exact Hs | split].
  - rewrite deliver_totalCount.
    unfold STX.resetComponent. destruct (STX.unwatchRef st); reflexivity.
  - rewrite Hs.
    destruct (deliver_from_empty evs (STX.startStreaming None st) eq_refl)
      as [_ [Hlen _]].
    rewrite Hlen. lia.
Qed.

(** The 25-event scenario of the specification: E1..E25 delivered in
    order leave E25..E6 in the buffer and a counter of 25. *)
Example feed_of_25_events :
  let E i := STX.mkTimeboostedTransaction "0x" (Z.of_nat i) 0 in
  let evs := map (fun i => (1000 * Z.of_nat i, E i)) (seq 1 25) in
  let st := STX.deliver evs (STX.startStreaming None STX.initial) in
  map (fun e => STX.blockNumber (STX.tx e)) (STX.transactions st)
  = map Z.of_nat (rev (seq 6 20))
  /\ STX.totalCount st = 25.
Proof. vm_compute. split; reflexivity. Qed.

(** C7.  The flag of a buffered event at evaluation time [now] is true
    iff [now - timestamp < 3000], where the timestamp is the time at which
    [onTransaction] received the event; the flag is a function of the
    evaluation time, computed at each render from the stored timestamp:
    the same event is flagged 2999 ms after its arrival and no longer
    flagged 3000 ms after it. *)
Theorem C7_new_flag_is_recent_arrival (now : Z) :
  (forall ev,
     STX.isNew now ev = true <-> now - STX.timestamp ev < 3000)
  /\ (forall t tx st,
       hd_error (STX.transactions (STX.onTransaction t tx st))
       = Some (STX.mkTransactionWithTimestamp tx t)
       /\ (STX.isNew now (STX.mkTransactionWithTimestamp tx t) = true
           <-> now - t < 3000))
  /\ (forall st,
       STX.renderIsNew now st
       = map (fun ev => now - STX.timestamp ev <? 3000) (STX.transactions st))
  /\ (forall ev,
       STX.isNew (STX.timestamp ev + 2999) ev = true
       /\ STX.isNew (STX.timestamp ev + 3000) ev = false).
Proof.
  split; [| split; [| split]].
  - intros ev. unfold STX.isNew. apply Z.ltb_lt.
  - intros t tx st. split; [reflexivity |].
    unfold STX.isNew. simpl. apply Z.ltb_lt.
  - intros st. reflexivity.
  - intros ev. unfold STX.isNew. split.
    + apply Z.ltb_lt. lia.
    + apply Z.ltb_ge. lia.
Qed.

(** C8.  The [onError] callback records the error message (or the default
    message when the error has none) as the last error, sets the streaming
    flag to false, and leaves the buffer and the total-received counter as
    they were. *)
Theorem C8_onError_keeps_buffer (message : string) (st : STX.State) :
  let st' := STX.onError message st in
  STX.error st'
  = Some (if String.eqb message EmptyString
          then "Streaming error occurred"%string
          else message)
  /\ STX.error st' <> None
  /\ STX.isStreaming st' = false
  /\ STX.transactions st' = STX.transactions st
  /\ STX.totalCount st' = STX.totalCount st.
Proof.
  cbv zeta. unfold STX.onError, JS.or_string. simpl.
  repeat split; discriminate.
Qed.

(** * Further properties: texts, panels and intervals *)

(** ** Texts *)

Section Strings.

Lemma string_length_append (a b : string) :
  String.length (a ++ b) = (String.length a + String.length b)%nat.
Proof. induction a as [| c a IH]; simpl; [reflexivity | now rewrite IH]. Qed.

Lemma string_append_inj_tail (a1 a2 b1 b2 : string) :
  String.length b1 = String.length b2 ->
  (a1 ++ b1 = a2 ++ b2)%string -> a1 = a2 /\ b1 = b2.
Proof.
  revert a2. induction a1 as [| c a1 IH]; intros [| d a2] Hlen Heq; simpl in Heq.
  - split; [reflexivity | exact Heq].
  - exfalso. apply (f_equal String.length) in Heq. simpl in Heq.
    rewrite string_length_append in Heq. lia.
  - exfalso. apply (f_equal String.length) in Heq. simpl in Heq.
    rewrite string_length_append in Heq. lia.
  - injection Heq as -> Heq. destruct (IH a2 Hlen Heq) as [-> ->].
    split; reflexivity.
Qed.

Lemma string_length_replicate (n : nat) (c : ascii) :
  String.length (Format.replicate n c) = n.
Proof. induction n as [| k IH]; simpl; [reflexivity | now rewrite IH]. Qed.

End Strings.

Section Numerals.

(** The number read back from a numeral with leading zeros. *)
Let readBack (s : string) : option Z :=
  option_map (fun d => Z.of_int (Decimal.Pos d))
    (DecimalString.NilEmpty.uint_of_string s).

Lemma toString_nonneg (z : Z) :
  0 <= z ->
  exists d, Format.toString z = DecimalString.NilEmpty.string_of_uint d
            /\ Z.of_int (Decimal.Pos d) = z.
Proof.
  intros Hz. unfold Format.toString.
  pose proof (DecimalZ.of_to z) as Hof.
  destruct z as [| p | p]; [| | lia].
  - exists Decimal.zero. split; reflexivity.
  - simpl in *. exists (Pos.to_uint p). split; [| exact Hof].
    unfold DecimalString.NilZero.string_of_uint.
    pose proof (DecimalPos.Unsigned.to_uint_nonnil p) as Hn.
    destruct (Pos.to_uint p); [contradiction | reflexivity ..].
Qed.

Lemma readBack_padStart (z : Z) :
  0 <= z -> readBack (Format.padStart 2 "0" (Format.toString z)) = Some z.
Proof.
  intros Hz. destruct (toString_nonneg z Hz) as [d [-> Hd]].
  unfold Format.padStart, readBack.
  set (k := (2 - String.length (DecimalString.NilEmpty.string_of_uint d))%nat).
  assert (Hk : (k <= 2)%nat) by (unfold k; lia).
  destruct k as [| [| [| k]]]; simpl; try lia;
    rewrite DecimalString.NilEmpty.usu; simpl; now f_equal.
Qed.

Lemma padStart_toString_inj (x y : Z) :
  0 <= x -> 0 <= y ->
  Format.padStart 2 "0" (Format.toString x)
  = Format.padStart 2 "0" (Format.toString y) ->
  x = y.
Proof.
  intros Hx Hy Heq. apply (f_equal readBack) in Heq.
  rewrite !readBack_padStart in Heq by assumption. congruence.
Qed.

End Numerals.

Section FormatTime.

(** The two characters of a number below 100. *)
Let twoDigits (n : Z) : string :=
  String (Format.digit (n / 10)) (String (Format.digit (n mod 10)) EmptyString).

Lemma padStart_two_digits (n : Z) :
  0 <= n < 100 ->
  Format.padStart 2 "0" (Format.toString n) = twoDigits n.
Proof.
  intros Hn.
  assert (Hall : forallb
            (fun k => String.eqb
                        (Format.padStart 2 "0" (Format.toString (Z.of_nat k)))
                        (twoDigits (Z.of_nat k)))
            (seq 0 100) = true) by (vm_compute; reflexivity).
  rewrite forallb_forall in Hall.
  specialize (Hall (Z.to_nat n)).
  rewrite Z2Nat.id in Hall by lia.
  apply String.eqb_eq, Hall, in_seq. lia.
Qed.

Lemma formatTime_positive (s : Z) :
  0 < s ->
  Format.formatTime s
  = (Format.padStart 2 "0" (Format.toString (s / 60)) ++ ":"
     ++ Format.padStart 2 "0" (Format.toString (s mod 60)))%string.
Proof.
  intros Hs. unfold Format.formatTime.
  destruct (Z.leb_spec s 0); [lia |].
  rewrite Z.rem_mod_nonneg by lia. reflexivity.
Qed.

Lemma formatTime_clamped (s : Z) :
  Format.formatTime s
  = (Format.padStart 2 "0" (Format.toString (Z.max 0 s / 60)) ++ ":"
     ++ Format.padStart 2 "0" (Format.toString (Z.max 0 s mod 60)))%string.
Proof.
  destruct (Z.leb_spec s 0) as [Hle | Hgt].
  - rewrite Z.max_l by lia. unfold Format.formatTime.
    destruct (Z.leb_spec s 0); [reflexivity | lia].
  - rewrite Z.max_r by lia. apply formatTime_positive. exact Hgt.
Qed.

End FormatTime.

(** X1.  Two times are shown by [formatTime] as the same text iff they are
    equal or both at most 0: every time of 0 or less is shown as 00:00, and
    distinct positive times are never shown alike. *)
Theorem formatTime_same_text_iff (a b : Z) :
  Format.formatTime a = Format.formatTime b <-> Z.max 0 a = Z.max 0 b.
Proof.
  split.
  - rewrite !formatTime_clamped.
    set (x := Z.max 0 a). set (y := Z.max 0 b).
    assert (Hx : 0 <= x) by (unfold x; lia).
    assert (Hy : 0 <= y) by (unfold y; lia).
    clearbody x y. intros Heq.
    assert (Hmx : 0 <= x mod 60 < 60) by (apply Z.mod_pos_bound; lia).
    assert (Hmy : 0 <= y mod 60 < 60) by (apply Z.mod_pos_bound; lia).
    apply string_append_inj_tail in Heq.
    + destruct Heq as [Hmin Hsec].
      injection Hsec as Hsec.
      apply padStart_toString_inj in Hmin;
        [| apply Z.div_pos; lia | apply Z.div_pos; lia].
      apply padStart_toString_inj in Hsec; [| lia | lia].
      rewrite (Z.div_mod x 60), (Z.div_mod y 60) by lia. congruence.
    + simpl. rewrite !padStart_two_digits by lia. reflexivity.
  - intros Heq. rewrite (formatTime_clamped a), (formatTime_clamped b), Heq.
    reflexivity.
Qed.

(** X2.  For a time between 1 and 5999 seconds [formatTime] gives exactly
    five characters: the two digits of the minutes, a colon and the two
    digits of the seconds. *)
Theorem formatTime_two_digit_fields (s : Z) :
  0 < s < 6000 ->
  Format.formatTime s
  = String (Format.digit (s / 600))
      (String (Format.digit (s / 60 mod 10))
         (String ":"
            (String (Format.digit (s mod 60 / 10))
               (String (Format.digit (s mod 10)) EmptyString)))).
Proof.
  intros Hs. rewrite formatTime_positive by lia.
  assert (Hm : 0 <= s / 60 < 100).
  { split; [apply Z.div_pos; lia | apply Z.div_lt_upper_bound; lia]. }
  assert (Hr : 0 <= s mod 60 < 60) by (apply Z.mod_pos_bound; lia).
  rewrite !padStart_two_digits by lia. simpl.
  rewrite Z.div_div by lia.
  rewrite (Z.mod_mod_divide s 60 10) by (exists 6; reflexivity).
  reflexivity.
Qed.

(** 65 seconds are shown as 01:05. *)
Lemma formatTime_two_digit_fields_witness :
  Format.formatTime 65 = "01:05"%string.
Proof. apply (formatTime_two_digit_fields 65). lia. Defined.

Section Slices.

Lemma substring_all (s : string) (m : nat) :
  (String.length s <= m)%nat -> substring 0 m s = s.
Proof.
  revert m. induction s as [| c s IH]; intros m Hm.
  - destruct m; reflexivity.
  - destruct m as [| m]; simpl in *; [lia |]. now rewrite IH by lia.
Qed.

Lemma substring_prefix (p x : string) :
  substring 0 (String.length p) (p ++ x) = p.
Proof.
  induction p as [| c p IH]; simpl.
  - destruct x; reflexivity.
  - now rewrite IH.
Qed.

Lemma substring_suffix (x q : string) (m : nat) :
  (String.length q <= m)%nat ->
  substring (String.length x) m (x ++ q) = q.
Proof.
  intros Hm. induction x as [| c x IH]; simpl.
  - now apply substring_all.
  - exact IH.
Qed.

Lemma substring_length (s : string) :
  forall n m,
    String.length (substring n m s)
    = Nat.min m (String.length s - n).
Proof.
  induction s as [| c s IH]; intros n m.
  - destruct n, m; reflexivity.
  - destruct n as [| n].
    + destruct m as [| m]; simpl; [reflexivity |].
      rewrite IH. f_equal. f_equal. lia.
    + simpl. apply IH.
Qed.

Lemma slice_first6 (s : string) :
  Format.slice s 0 (Some 6) = substring 0 6 s.
Proof.
  unfold Format.slice, Format.relativeIndex.
  change (0 <? 0) with false. change (6 <? 0) with false. cbv iota.
  rewrite Z.min_l by lia. change (Z.to_nat 0) with 0%nat.
  replace (Z.to_nat (Z.max (Z.min 6 (Z.of_nat (String.length s)) - 0) 0))
    with (Nat.min 6 (String.length s)) by lia.
  destruct (Nat.le_gt_cases 6 (String.length s)) as [H | H].
  - now rewrite Nat.min_l by lia.
  - rewrite Nat.min_r by lia. rewrite !substring_all by lia. reflexivity.
Qed.

Lemma slice_last4 (s : string) :
  Format.slice s (-4) None
  = substring (String.length s - 4) 4 s.
Proof.
  unfold Format.slice, Format.relativeIndex.
  change (-4 <? 0) with true. cbv iota.
  replace (Z.to_nat (Z.max (Z.of_nat (String.length s) + -4) 0))
    with (String.length s - 4)%nat by lia.
  replace (Z.to_nat
             (Z.max
                (Z.of_nat (String.length s)
                 - Z.max (Z.of_nat (String.length s) + -4) 0) 0))
    with (Nat.min 4 (String.length s)) by lia.
  destruct (Nat.le_gt_cases 4 (String.length s)) as [H | H].
  - now rewrite Nat.min_l by lia.
  - rewrite Nat.min_r by lia.
    replace (String.length s - 4)%nat with 0%nat by lia.
    rewrite !substring_all by lia. reflexivity.
Qed.

End Slices.

(** X3.  For an address of at least 10 characters [formatAddress] keeps
    its first 6 and its last 4 characters and replaces what is between them
    by three dots. *)
Theorem formatAddress_keeps_both_ends (p middle q : string) :
  String.length p = 6%nat ->
  String.length q = 4%nat ->
  Format.formatAddress (p ++ middle ++ q) = (p ++ "..." ++ q)%string.
Proof.
  intros Hp Hq. unfold Format.formatAddress.
  rewrite slice_first6, slice_last4. f_equal.
  - rewrite <- Hp. apply substring_prefix.
  - f_equal.
    replace (p ++ middle ++ q)%string with ((p ++ middle) ++ q)%string.
    + replace (String.length ((p ++ middle) ++ q) - 4)%nat
        with (String.length (p ++ middle)).
      * apply substring_suffix. lia.
      * rewrite (string_length_append (p ++ middle) q). lia.
    + clear. induction p as [| c p IH]; simpl; [reflexivity | now rewrite IH].
Qed.

(** An 18-character address keeps 0x1234 and cdef. *)
Lemma formatAddress_keeps_both_ends_witness :
  Format.formatAddress "0x1234567890abcdef" = "0x1234...cdef"%string.
Proof.
  apply (formatAddress_keeps_both_ends "0x1234" "567890ab" "cdef");
    reflexivity.
Defined.

(** X4.  For an address of at most 4 characters the two slices of
    [formatAddress] are both the whole address: it is shown twice around
    the dots (the empty address as the dots alone). *)
Theorem formatAddress_short_repeats (address : string) :
  (String.length address <= 4)%nat ->
  Format.formatAddress address = (address ++ "..." ++ address)%string.
Proof.
  intros Hlen. unfold Format.formatAddress.
  rewrite slice_first6, slice_last4.
  replace (String.length address - 4)%nat with 0%nat by lia.
  rewrite !substring_all by lia. reflexivity.
Qed.

(** A two-character address is shown twice. *)
Lemma formatAddress_short_repeats_witness :
  Format.formatAddress "ab" = "ab...ab"%string.
Proof. apply (formatAddress_short_repeats "ab"). simpl. lia. Defined.

(** X5.  The text of [formatAddress] has min(6, n) + 3 + min(4, n)
    characters for an address of n characters, so never more than 13. *)
Theorem formatAddress_length (address : string) :
  String.length (Format.formatAddress address)
  = (Nat.min 6 (String.length address) + 3
     + Nat.min 4 (String.length address))%nat.
Proof.
  unfold Format.formatAddress.
  rewrite slice_first6, slice_last4.
  rewrite !string_length_append, !substring_length. simpl String.length.
  lia.
Qed.

Lemma getTimeSinceReceived_cases (now timestamp : Z) :
  let elapsed := now - timestamp in
  (elapsed < 60000 ->
   Format.getTimeSinceReceived now timestamp
   = (Format.toString (elapsed / 1000) ++ "s ago")%string)
  /\ (60000 <= elapsed < 3600000 ->
      Format.getTimeSinceReceived now timestamp
      = (Format.toString (elapsed / 60000) ++ "m ago")%string)
  /\ (3600000 <= elapsed ->
      Format.getTimeSinceReceived now timestamp
      = (Format.toString (elapsed / 3600000) ++ "h ago")%string).
Proof.
  cbv zeta. unfold Format.getTimeSinceReceived.
  set (e := now - timestamp).
  assert (H1 : e / 1000 / 60 = e / 60000) by (rewrite Z.div_div by lia; reflexivity).
  assert (H2 : e / 1000 / 60 / 60 = e / 3600000)
    by (rewrite !Z.div_div by lia; reflexivity).
  split; [| split]; intros He.
  - assert (e / 1000 < 60) by (apply Z.div_lt_upper_bound; lia).
    destruct (Z.ltb_spec (e / 1000) 60); [reflexivity | lia].
  - assert (60 <= e / 1000) by (apply Z.div_le_lower_bound; lia).
    assert (e / 60000 < 60) by (apply Z.div_lt_upper_bound; lia).
    destruct (Z.ltb_spec (e / 1000) 60); [lia |].
    rewrite H1. destruct (Z.ltb_spec (e / 60000) 60); [reflexivity | lia].
  - assert (60 <= e / 1000) by (apply Z.div_le_lower_bound; lia).
    assert (60 <= e / 60000) by (apply Z.div_le_lower_bound; lia).
    destruct (Z.ltb_spec (e / 1000) 60); [lia |].
    rewrite H2, H1. destruct (Z.ltb_spec (e / 60000) 60); [lia | reflexivity].
Qed.

(** X6.  [getTimeSinceReceived] shows the elapsed time in whole seconds
    below one minute (also when it is negative), in whole minutes below one
    hour and in whole hours from there on, each rounded down. *)
Theorem getTimeSinceReceived_units (now timestamp : Z) :
  let elapsed := now - timestamp in
  (elapsed < 60000 ->
   Format.getTimeSinceReceived now timestamp
   = (Format.toString (elapsed / 1000) ++ "s ago")%string)
  /\ (60000 <= elapsed < 3600000 ->
      Format.getTimeSinceReceived now timestamp
      = (Format.toString (elapsed / 60000) ++ "m ago")%string)
  /\ (3600000 <= elapsed ->
      Format.getTimeSinceReceived now timestamp
      = (Format.toString (elapsed / 3600000) ++ "h ago")%string).
Proof. exact (getTimeSinceReceived_cases now timestamp). Qed.

(** An event received 120 seconds ago is two minutes old. *)
Lemma getTimeSinceReceived_units_witness :
  Format.getTimeSinceReceived 125000 5000 = "2m ago"%string.
Proof.
  destruct (getTimeSinceReceived_units 125000 5000) as [_ [Hm _]].
  apply Hm. lia.
Defined.



(** ** The interval of a countdown *)

Section IntervalInvariant.

Lemma intervalEffect_shown (before after : option Z) (ref : bool) :
  (ref = true -> before <> None) ->
  Countdown.intervalEffect before after ref = true -> after <> None.
Proof.
  unfold Countdown.intervalEffect. intros Hinv.
  destruct before, after; simpl; intros H; try discriminate.
  specialize (Hinv H). congruence.
Qed.

Lemma AS_installed_shown_effects (before after : AS.State) :
  Invariant.AS_installed_shown before ->
  AS.countdownIntervalRef after = AS.countdownIntervalRef before ->
  AS.roundStartIntervalRef after = AS.roundStartIntervalRef before ->
  Invariant.AS_installed_shown (AS.intervalEffects before after).
Proof.
  intros [Hc Hr] Ec Er. unfold Invariant.AS_installed_shown, AS.intervalEffects. simpl.
  rewrite Ec, Er. split; apply intervalEffect_shown; assumption.
Qed.

Lemma AS_installed_shown_step (st : AS.State) (e : AS.Event) :
  Invariant.AS_installed_shown st -> Invariant.AS_installed_shown (AS.step st e).
Proof.
  intros Hinv. destruct e as [| now s | err | |]; simpl.
  - exact Hinv.
  - unfold AS.fetchStatus_resolved. apply AS_installed_shown_effects.
    + exact Hinv.
    + unfold AS.statusEffect. simpl.
      destruct (AS.currentPhase s); simpl; case_resync.
    + unfold AS.statusEffect. simpl.
      destruct (AS.currentPhase s); simpl; case_resync.
  - exact Hinv.
  - unfold AS.countdownTick.
    destruct (AS.countdownIntervalRef st) eqn:Hr; [| exact Hinv].
    apply AS_installed_shown_effects; [exact Hinv | reflexivity ..].
  - unfold AS.roundStartTick.
    destruct (AS.roundStartIntervalRef st) eqn:Hr; [| exact Hinv].
    apply AS_installed_shown_effects; [exact Hinv | reflexivity ..].
Qed.

Lemma ELC_installed_shown_step (st : ELC.State) (e : ELC.Event) :
  Invariant.ELC_installed_shown st -> Invariant.ELC_installed_shown (ELC.step st e).
Proof.
  intros Hinv. destruct e as [| now info | err |]; simpl.
  - exact Hinv.
  - unfold ELC.fetchController_resolved, Invariant.ELC_installed_shown,
      ELC.intervalEffects. simpl.
    apply intervalEffect_shown.
    replace (ELC.countdownIntervalRef (ELC.controllerEffect now _))
      with (ELC.countdownIntervalRef st); [exact Hinv |].
    unfold ELC.controllerEffect. simpl.
    destruct (JS.not_string (ELC.currentController info)); simpl; case_resync.
  - exact Hinv.
  - unfold ELC.countdownTick.
    destruct (ELC.countdownIntervalRef st) eqn:Hr; [| exact Hinv].
    unfold Invariant.ELC_installed_shown, ELC.intervalEffects. simpl.
    apply intervalEffect_shown. intros _. apply Hinv, Hr.
Qed.

Lemma ELC_installed_shown_run (es : list ELC.Event) :
  forall st, Invariant.ELC_installed_shown st -> Invariant.ELC_installed_shown (ELC.run es st).
Proof.
  induction es as [| e es IH]; intros st H; simpl; [exact H |].
  apply IH, ELC_installed_shown_step, H.
Qed.

End IntervalInvariant.

(** X8.  In every state reached from the mounted component, an interval
    is installed only while its countdown is displayed: the panels never
    leave an interval running for an absent countdown. *)
Theorem interval_installed_only_while_displayed :
  (forall st,
     AS.reachable st ->
     (AS.countdownIntervalRef st = true -> AS.localCountdown st <> None)
     /\ (AS.roundStartIntervalRef st = true ->
         AS.localRoundStartCountdown st <> None))
  /\ (forall es,
       ELC.countdownIntervalRef (ELC.run es ELC.initial) = true ->
       ELC.localTimeRemaining (ELC.run es ELC.initial) <> None).
Proof.
  split.
  - intros st Hr. induction Hr as [| st e _ IH].
    + split; discriminate.
    + apply (AS_installed_shown_step st e IH).
  - intros es. apply (ELC_installed_shown_run es ELC.initial). discriminate.
Qed.

(** After a first bidding sample of 42 the interval is installed and 42
    is displayed. *)
Lemma interval_installed_only_while_displayed_witness :
  AS.countdownIntervalRef Scenario.AS_at_42 = true
  /\ AS.localCountdown Scenario.AS_at_42 <> None.
Proof.
  split; [reflexivity |].
  destruct interval_installed_only_while_displayed as [Hstatus _].
  apply (Hstatus Scenario.AS_at_42).
  - apply (AS.reachable_step AS.initial
             (AS.PollResolved 0 (AS.mkAuctionStatus bidding 42 87))).
    apply AS.reachable_initial.
  - reflexivity.
Defined.

Lemma ELC_resolved_countdownIntervalRef (now : Z)
  (info : ELC.ExpressLaneController) (st : ELC.State) :
  ELC.countdownIntervalRef (ELC.fetchController_resolved now info st)
  = Countdown.intervalEffect (ELC.localTimeRemaining st)
      (ELC.localTimeRemaining (ELC.fetchController_resolved now info st))
      (ELC.countdownIntervalRef st).
Proof.
  unfold ELC.fetchController_resolved, ELC.controllerEffect. simpl.
  destruct (JS.not_string (ELC.currentController info)); simpl; case_resync.
Qed.

Lemma AS_resolved_countdownIntervalRef (now : Z)
  (s : AS.AuctionStatus) (st : AS.State) :
  AS.countdownIntervalRef (AS.fetchStatus_resolved now s st)
  = Countdown.intervalEffect (AS.localCountdown st)
      (AS.localCountdown (AS.fetchStatus_resolved now s st))
      (AS.countdownIntervalRef st).
Proof.
  unfold AS.fetchStatus_resolved, AS.statusEffect. simpl.
  destruct (AS.currentPhase s); simpl; case_resync.
Qed.

(** X9.  The interval effect depends on [local !== null] only.  If a
    countdown is displayed while no interval is installed (as after a
    first sample of 0), a further bidding sample replaces or keeps the
    value but installs no interval: the displayed value is not ticked,
    however many seconds pass. *)
Theorem countdown_shown_without_interval_never_ticks
  (now : Z) (s : AS.AuctionStatus) (st : AS.State) :
  AS.currentPhase s = bidding ->
  AS.localCountdown st <> None ->
  AS.countdownIntervalRef st = false ->
  let st' := AS.fetchStatus_resolved now s st in
  AS.localCountdown st' <> None
  /\ AS.countdownIntervalRef st' = false
  /\ forall n, Nat.iter n AS.countdownTick st' = st'.
Proof.
  intros Hp Hshown Hoff. cbv zeta.
  assert (Hl : AS.localCountdown (AS.fetchStatus_resolved now s st) <> None).
  { rewrite AS_resolved_localCountdown, Hp. case_resync; [discriminate | exact Hshown]. }
  assert (Hr : AS.countdownIntervalRef (AS.fetchStatus_resolved now s st)
               = false).
  { rewrite AS_resolved_countdownIntervalRef.
    destruct (AS.localCountdown st); [| congruence].
    destruct (AS.localCountdown (AS.fetchStatus_resolved now s st));
      [exact Hoff | congruence]. }
  split; [exact Hl | split; [exact Hr |]].
  intros n. induction n as [| k IH]; [reflexivity |].
  simpl. rewrite IH. unfold AS.countdownTick. now rewrite Hr.
Qed.

Lemma countdown_shown_without_interval_never_ticks_witness :
  AS.localCountdown
    (Nat.iter 10 AS.countdownTick
       (AS.fetchStatus_resolved 15000 (AS.mkAuctionStatus bidding 30 75)
          Scenario.AS_at_zero)) = Some 30.
Proof.
  destruct (countdown_shown_without_interval_never_ticks 15000
              (AS.mkAuctionStatus bidding 30 75) Scenario.AS_at_zero
              eq_refl) as [_ [_ Hfix]].
  - discriminate.
  - reflexivity.
  - rewrite Hfix. reflexivity.
Defined.

Section TickFrame.

Lemma ELC_tick_frame (st : ELC.State) :
  ELC.controller (ELC.countdownTick st) = ELC.controller st
  /\ ELC.loading (ELC.countdownTick st) = ELC.loading st
  /\ ELC.error (ELC.countdownTick st) = ELC.error st
  /\ ELC.isInitialLoad (ELC.countdownTick st) = ELC.isInitialLoad st.
Proof.
  unfold ELC.countdownTick.
  destruct (ELC.countdownIntervalRef st); repeat split; reflexivity.
Qed.

Lemma ELC_iter_tick_frame (n : nat) (st : ELC.State) :
  ELC.controller (Nat.iter n ELC.countdownTick st) = ELC.controller st
  /\ ELC.loading (Nat.iter n ELC.countdownTick st) = ELC.loading st
  /\ ELC.error (Nat.iter n ELC.countdownTick st) = ELC.error st
  /\ ELC.isInitialLoad (Nat.iter n ELC.countdownTick st)
     = ELC.isInitialLoad st.
Proof.
  induction n as [| k IH]; [repeat split; reflexivity |].
  simpl. destruct IH as [Hc [Hl [He Hi]]].
  destruct (ELC_tick_frame (Nat.iter k ELC.countdownTick st))
    as [Hc' [Hl' [He' Hi']]].
  repeat split; congruence.
Qed.

Lemma AS_tick_frame (st : AS.State) :
  AS.status (AS.countdownTick st) = AS.status st
  /\ AS.loading (AS.countdownTick st) = AS.loading st
  /\ AS.error (AS.countdownTick st) = AS.error st
  /\ AS.isInitialLoad (AS.countdownTick st) = AS.isInitialLoad st
  /\ AS.localRoundStartCountdown (AS.countdownTick st)
     = AS.localRoundStartCountdown st.
Proof.
  unfold AS.countdownTick.
  destruct (AS.countdownIntervalRef st); repeat split; reflexivity.
Qed.

Lemma AS_iter_tick_frame (n : nat) (st : AS.State) :
  AS.status (Nat.iter n AS.countdownTick st) = AS.status st
  /\ AS.loading (Nat.iter n AS.countdownTick st) = AS.loading st
  /\ AS.error (Nat.iter n AS.countdownTick st) = AS.error st
  /\ AS.isInitialLoad (Nat.iter n AS.countdownTick st) = AS.isInitialLoad st
  /\ AS.localRoundStartCountdown (Nat.iter n AS.countdownTick st)
     = AS.localRoundStartCountdown st.
Proof.
  induction n as [| k IH]; [repeat split; reflexivity |].
  simpl. destruct IH as [Hs [Hl [He [Hi Hr]]]].
  destruct (AS_tick_frame (Nat.iter k AS.countdownTick st))
    as [Hs' [Hl' [He' [Hi' Hr']]]].
  repeat split; congruence.
Qed.

End TickFrame.

(** X10.  After a poll that reports a controller with V > 0 seconds
    left while nothing was displayed, the controller panel shows V - n
    after n <= V ticks (00:00 after V ticks); one tick later the display is
    absent and the panel falls back to the polled sample: it shows V
    again. *)
Theorem controller_time_returns_to_sample_after_expiry
  (now V : Z) (address : string) (st : ELC.State) :
  address <> EmptyString ->
  0 < V ->
  ELC.localTimeRemaining st = None ->
  let info := ELC.mkExpressLaneController (Some address) V in
  let st0 := ELC.fetchController_resolved now info
               (ELC.fetchController_begin st) in
  (forall n,
     Z.of_nat n <= V ->
     View.renderController (Nat.iter n ELC.countdownTick st0)
     = View.ELCController (Format.formatAddress address)
         (Format.formatTime (V - Z.of_nat n)))
  /\ View.renderController (Nat.iter (S (Z.to_nat V)) ELC.countdownTick st0)
     = View.ELCController (Format.formatAddress address)
         (Format.formatTime V).
Proof.
  intros Ha HV Habsent info st0.
  assert (Hna : String.eqb address EmptyString = false)
    by (apply String.eqb_neq; exact Ha).
  assert (Hl0 : ELC.localTimeRemaining st0 = Some V).
  { unfold st0. rewrite ELC_resolved_localTimeRemaining. simpl.
    rewrite Hna. simpl. rewrite Habsent. reflexivity. }
  assert (Hr0 : ELC.countdownIntervalRef st0 = true).
  { unfold st0. rewrite ELC_resolved_countdownIntervalRef.
    fold st0. rewrite Hl0. simpl. rewrite Habsent. simpl.
    apply Z.gtb_gt. lia. }
  assert (Hview : forall n,
            View.renderController (Nat.iter n ELC.countdownTick st0)
            = View.ELCController (Format.formatAddress address)
                (Format.formatTime
                   (match Countdown.ticks n (Some V) with
                    | Some v => v
                    | None => V
                    end))).
  { intros n.
    destruct (ELC_iter_tick_frame n st0) as [Hc [Hl [He Hi]]].
    destruct (iter_tick_ticks _ _ _ _ ELC_countdownTick_view n st0)
      as [Ht _]; [left; exact Hr0 |].
    assert (Hf : ELC.controller st0 = Some info
                 /\ ELC.loading st0 = false
                 /\ ELC.error st0 = None
                 /\ ELC.isInitialLoad st0 = false).
    { unfold st0, ELC.fetchController_resolved, ELC.controllerEffect. simpl.
      rewrite Hna. simpl. case_resync; repeat split; reflexivity. }
    destruct Hf as [Hc0 [Hld0 [He0 Hi0]]].
    unfold View.renderController, View.shownTimeRemaining.
    rewrite Hc, Hl, He, Hi, Ht, Hl0, Hc0, Hld0, He0, Hi0.
    simpl. rewrite Hna. reflexivity. }
  split.
  - intros n Hn. rewrite Hview, ticks_present by exact Hn. reflexivity.
  - rewrite Hview, ticks_absent by lia. reflexivity.
Qed.

(** A controller with 2 seconds left: 00:00 after two ticks, 00:02 again
    after the third. *)
Lemma controller_time_returns_to_sample_after_expiry_witness :
  View.renderController
    (Nat.iter 2 ELC.countdownTick
       (ELC.fetchController_resolved 1000
          (ELC.mkExpressLaneController (Some "0xA11CE"%string) 2)
          (ELC.fetchController_begin ELC.initial)))
  = View.ELCController "0xA11C...11CE" "00:00"
  /\ View.renderController
       (Nat.iter 3 ELC.countdownTick
          (ELC.fetchController_resolved 1000
             (ELC.mkExpressLaneController (Some "0xA11CE"%string) 2)
             (ELC.fetchController_begin ELC.initial)))
     = View.ELCController "0xA11C...11CE" "00:02".
Proof.
  destruct (controller_time_returns_to_sample_after_expiry 1000 2 "0xA11CE"
              ELC.initial) as [Hdown Hback].
  - discriminate.
  - lia.
  - reflexivity.
  - split; [apply (Hdown 2%nat); simpl; lia | exact Hback].
Defined.

(** X11.  After a bidding sample of V > 0 seconds while nothing was
    displayed, the status panel shows the closing countdown V - n after
    n <= V ticks, and after V + 1 ticks the countdown line is removed from
    the panel. *)
Theorem bidding_countdown_text_then_panel_removed
  (now V roundStarts : Z) (st : AS.State) :
  0 < V ->
  AS.localCountdown st = None ->
  let s := AS.mkAuctionStatus bidding V roundStarts in
  let st0 := AS.fetchStatus_resolved now s (AS.fetchStatus_begin st) in
  (forall n,
     Z.of_nat n <= V ->
     View.renderAuctionStatus (Nat.iter n AS.countdownTick st0)
     = View.ASStatus (Format.getPhaseLabel bidding)
         (Format.getPhaseColor bidding)
         (Some (Format.formatTime (V - Z.of_nat n))) None)
  /\ View.renderAuctionStatus (Nat.iter (S (Z.to_nat V)) AS.countdownTick st0)
     = View.ASStatus (Format.getPhaseLabel bidding)
         (Format.getPhaseColor bidding) None None.
Proof.
  intros HV Habsent s st0.
  assert (Hl0 : AS.localCountdown st0 = Some V).
  { unfold st0. rewrite AS_resolved_localCountdown. simpl.
    rewrite Habsent. reflexivity. }
  assert (Hr0 : AS.countdownIntervalRef st0 = true).
  { unfold st0. rewrite AS_resolved_countdownIntervalRef.
    fold st0. rewrite Hl0. simpl. rewrite Habsent. simpl.
    apply Z.gtb_gt. lia. }
  assert (Hf : AS.status st0 = Some s
               /\ AS.loading st0 = false
               /\ AS.error st0 = None
               /\ AS.isInitialLoad st0 = false
               /\ AS.localRoundStartCountdown st0 = None).
  { unfold st0, AS.fetchStatus_resolved, AS.statusEffect. simpl.
    case_resync; repeat split; reflexivity. }
  destruct Hf as [Hs0 [Hld0 [He0 [Hi0 Hrs0]]]].
  assert (Hview : forall n,
            View.renderAuctionStatus (Nat.iter n AS.countdownTick st0)
            = View.ASStatus (Format.getPhaseLabel bidding)
                (Format.getPhaseColor bidding)
                (option_map Format.formatTime (Countdown.ticks n (Some V)))
                None).
  { intros n.
    destruct (AS_iter_tick_frame n st0) as [Hs [Hl [He [Hi Hrs]]]].
    destruct (iter_tick_ticks _ _ _ _ AS_countdownTick_view n st0)
      as [Ht _]; [left; exact Hr0 |].
    unfold View.renderAuctionStatus.
    rewrite Hs, Hl, He, Hi, Hrs, Ht, Hl0, Hs0, Hld0, He0, Hi0, Hrs0.
    simpl. destruct (Countdown.ticks n (Some V)); reflexivity. }
  split.
  - intros n Hn. rewrite Hview, ticks_present by exact Hn. reflexivity.
  - rewrite Hview, ticks_absent by lia. reflexivity.
Qed.

(** A bidding sample of 2 seconds: 00:01 after one tick, no countdown
    line after three. *)
Lemma bidding_countdown_text_then_panel_removed_witness :
  View.renderAuctionStatus
    (Nat.iter 1 AS.countdownTick
       (AS.fetchStatus_resolved 1000 (AS.mkAuctionStatus bidding 2 47)
          (AS.fetchStatus_begin AS.initial)))
  = View.ASStatus (Format.getPhaseLabel bidding)
      (Format.getPhaseColor bidding) (Some "00:01"%string) None
  /\ View.renderAuctionStatus
       (Nat.iter 3 AS.countdownTick
          (AS.fetchStatus_resolved 1000 (AS.mkAuctionStatus bidding 2 47)
             (AS.fetchStatus_begin AS.initial)))
     = View.ASStatus (Format.getPhaseLabel bidding)
         (Format.getPhaseColor bidding) None None.
Proof.
  destruct (bidding_countdown_text_then_panel_removed 1000 2 47 AS.initial)
    as [Hdown Hgone].
  - lia.
  - reflexivity.
  - split; [apply (Hdown 1%nat); simpl; lia | exact Hgone].
Defined.

(** X12.  A failed status poll whose message is not empty replaces the
    whole status panel, countdowns included, by the error; with an empty
    message no error is shown.  The start of the next poll removes the
    error. *)
Theorem failed_poll_error_replaces_status_panel
  (err : option string) (st : AS.State) :
  let m := JS.message_or err "Unknown error occurred" in
  (m <> EmptyString ->
   View.renderAuctionStatus (AS.failedPoll err st) = View.ASError m)
  /\ (m = EmptyString ->
      forall m', View.renderAuctionStatus (AS.failedPoll err st)
                 <> View.ASError m')
  /\ (forall m',
        View.renderAuctionStatus (AS.fetchStatus_begin (AS.failedPoll err st))
        <> View.ASError m').
Proof.
  cbv zeta. split; [| split].
  - intros Hm. apply String.eqb_neq in Hm.
    unfold View.renderAuctionStatus, AS.failedPoll. simpl.
    rewrite andb_false_r. simpl. now rewrite Hm.
  - intros Hm m'.
    unfold View.renderAuctionStatus, AS.failedPoll. simpl.
    rewrite andb_false_r. simpl. rewrite Hm. simpl.
    destruct (AS.status st); discriminate.
  - intros m'. unfold View.renderAuctionStatus. simpl.
    destruct (AS.isInitialLoad st); simpl; [discriminate |].
    destruct (AS.status st); discriminate.
Qed.

(** 42 is displayed; the poll fails with a timeout; the panel shows the
    error instead of the countdown. *)
Lemma failed_poll_error_replaces_status_panel_witness :
  View.renderAuctionStatus
    (AS.failedPoll (Some "timeout"%string) Scenario.AS_at_42)
  = View.ASError "timeout".
Proof.
  destruct (failed_poll_error_replaces_status_panel (Some "timeout"%string)
              Scenario.AS_at_42) as [Hshown _].
  apply Hshown. discriminate.
Defined.

Section InitialLoad.

Lemma AS_step_not_initial (st : AS.State) (e : AS.Event) :
  AS.isInitialLoad st = false -> AS.isInitialLoad (AS.step st e) = false.
Proof.
  intros H. destruct e as [| now s | err | |]; simpl; try exact H.
  - unfold AS.fetchStatus_resolved, AS.statusEffect. simpl.
    destruct (AS.currentPhase s); simpl; case_resync.
  - unfold AS.countdownTick. destruct (AS.countdownIntervalRef st); exact H.
  - unfold AS.roundStartTick. destruct (AS.roundStartIntervalRef st); exact H.
Qed.

Lemma AS_run_not_initial (es : list AS.Event) :
  forall st,
    AS.isInitialLoad st = false -> AS.isInitialLoad (AS.run es st) = false.
Proof.
  induction es as [| e es IH]; intros st H; simpl; [exact H |].
  apply IH, AS_step_not_initial, H.
Qed.

End InitialLoad.

(** X13.  Once a status poll has resolved, the loading spinner is never
    rendered again, whatever happens next. *)
Theorem spinner_only_before_first_status
  (now : Z) (s : AS.AuctionStatus) (st : AS.State) (es : list AS.Event) :
  View.renderAuctionStatus (AS.run es (AS.fetchStatus_resolved now s st))
  <> View.ASLoading.
Proof.
  assert (H : AS.isInitialLoad (AS.run es (AS.fetchStatus_resolved now s st))
              = false).
  { apply AS_run_not_initial.
    unfold AS.fetchStatus_resolved, AS.statusEffect. simpl.
    destruct (AS.currentPhase s); simpl; case_resync. }
  unfold View.renderAuctionStatus. rewrite H. simpl.
  destruct (View.shownError _); [discriminate |].
  destruct (AS.status _); discriminate.
Qed.

Section PhaseOfCountdown.

Lemma AS_resolved_status (now : Z) (s : AS.AuctionStatus) (st : AS.State) :
  AS.status (AS.fetchStatus_resolved now s st) = Some s.
Proof.
  unfold AS.fetchStatus_resolved, AS.statusEffect. simpl.
  destruct (AS.currentPhase s); simpl; case_resync.
Qed.

Lemma countdown_matches_phase_step (st : AS.State) (e : AS.Event) :
  Invariant.countdown_matches_phase st -> Invariant.countdown_matches_phase (AS.step st e).
Proof.
  intros [Hb Hr]. destruct e as [| now s | err | |]; simpl.
  - split; assumption.
  - split; intros H; exists s; rewrite AS_resolved_status;
      (split; [reflexivity |]).
    + rewrite AS_resolved_localCountdown in H.
      destruct (AS.currentPhase s); congruence.
    + rewrite AS_resolved_localRoundStartCountdown in H.
      destruct (AS.currentPhase s); (congruence || auto).
  - split; assumption.
  - unfold AS.countdownTick.
    destruct (AS.countdownIntervalRef st); [| split; assumption].
    split; simpl; [| exact Hr].
    intros H. apply Hb. intros Hn. rewrite Hn in H. now apply H.
  - unfold AS.roundStartTick.
    destruct (AS.roundStartIntervalRef st); [| split; assumption].
    split; simpl; [exact Hb |].
    intros H. apply Hr. intros Hn. rewrite Hn in H. now apply H.
Qed.

End PhaseOfCountdown.

(** X14.  In every reachable state a displayed closing countdown goes
    with a last status in the bidding phase, and a displayed round-start
    countdown with a last status in the closing or resolving phase. *)
Theorem displayed_countdown_belongs_to_current_phase (st : AS.State) :
  AS.reachable st ->
  (AS.localCountdown st <> None ->
   exists s, AS.status st = Some s /\ AS.currentPhase s = bidding)
  /\ (AS.localRoundStartCountdown st <> None ->
      exists s, AS.status st = Some s
                /\ (AS.currentPhase s = closing
                    \/ AS.currentPhase s = resolving)).
Proof.
  intros Hr. induction Hr as [| st e _ IH].
  - split; intros H; now elim H.
  - apply (countdown_matches_phase_step st e IH).
Qed.

(** 39 is displayed in the closing countdown: the last status is a
    bidding status. *)
Lemma displayed_countdown_belongs_to_current_phase_witness :
  exists s,
    AS.status Scenario.AS_at_39 = Some s /\ AS.currentPhase s = bidding.
Proof.
  assert (Hr : AS.reachable Scenario.AS_at_39).
  { apply reachable_run. constructor. }
  destruct (displayed_countdown_belongs_to_current_phase Scenario.AS_at_39 Hr)
    as [Hbid _].
  apply Hbid. discriminate.
Defined.

(** ** The live feed *)

Section FeedInvariant.


End FeedInvariant.


(** X16.  [stopStreaming] is idempotent; it clears the streaming flag and
    the handle and keeps the buffer, the counter and the error. *)
Theorem stopStreaming_idempotent_keeps_feed (st : STX.State) :
  STX.stopStreaming (STX.stopStreaming st) = STX.stopStreaming st
  /\ STX.transactions (STX.stopStreaming st) = STX.transactions st
  /\ STX.totalCount (STX.stopStreaming st) = STX.totalCount st
  /\ STX.error (STX.stopStreaming st) = STX.error st
  /\ STX.isStreaming (STX.stopStreaming st) = false
  /\ STX.unwatchRef (STX.stopStreaming st) = false.
Proof.
  unfold STX.stopStreaming. simpl.
  destruct (STX.unwatchRef st) eqn:Hu; simpl; rewrite ?Hu; simpl;
    repeat split; try reflexivity; exact Hu.
Qed.

Section NewestFirst.

Lemma StronglySorted_app (A : Type) (R : A -> A -> Prop) (l1 l2 : list A) :
  StronglySorted R l1 -> StronglySorted R l2 ->
  (forall x y, In x l1 -> In y l2 -> R x y) ->
  StronglySorted R (l1 ++ l2).
Proof.
  intros H1 H2 Hx. induction H1 as [| a l1 Hs IH Hall]; simpl; [exact H2 |].
  constructor.
  - apply IH. intros x y Hin. apply Hx. now right.
  - apply Forall_app. split; [exact Hall |].
    apply Forall_forall. intros y Hy. apply Hx; [now left | exact Hy].
Qed.

Lemma StronglySorted_rev (A : Type) (R : A -> A -> Prop) (l : list A) :
  StronglySorted R l -> StronglySorted (fun a b => R b a) (rev l).
Proof.
  induction 1 as [| a l Hs IH Hall]; simpl; [constructor |].
  apply StronglySorted_app.
  - exact IH.
  - repeat constructor.
  - intros x y Hx [<- | []]. apply in_rev in Hx.
    rewrite Forall_forall in Hall. now apply Hall.
Qed.

Lemma StronglySorted_firstn (A : Type) (R : A -> A -> Prop) (n : nat)
  (l : list A) :
  StronglySorted R l -> StronglySorted R (firstn n l).
Proof.
  intros H. revert n. induction H as [| a l Hs IH Hall]; intros [| n];
    simpl; try constructor.
  - apply IH.
  - rewrite Forall_forall in *. intros x Hx. apply Hall.
    rewrite <- (firstn_skipn n l). apply in_or_app. now left.
Qed.

Lemma flags_of_newest_first (now : Z) (ts : list Z) :
  StronglySorted (fun a b => b <= a) ts ->
  exists k,
    (k <= List.length ts)%nat
    /\ map (fun t => now - t <? 3000) ts
       = repeat true k ++ repeat false (List.length ts - k).
Proof.
  induction 1 as [| t ts Hs IH Hall].
  - exists 0%nat. split; [apply Nat.le_refl | reflexivity].
  - destruct (Z.ltb_spec (now - t) 3000) as [Hnew | Hold].
    + destruct IH as [k [Hk Hflags]]. exists (S k).
      split; [simpl; lia |]. simpl. rewrite Hflags.
      destruct (Z.ltb_spec (now - t) 3000); [reflexivity | lia].
    + exists 0%nat. split; [simpl; lia |]. simpl.
      destruct (Z.ltb_spec (now - t) 3000); [lia |]. f_equal.
      clear IH Hs. induction ts as [| u ts IHts]; [reflexivity |].
      simpl. inversion Hall as [| ? ? Hu Hrest]; subst.
      destruct (Z.ltb_spec (now - u) 3000); [lia |].
      f_equal. apply IHts. exact Hrest.
Qed.

Lemma stamped_timestamps (evs : list (Z * STX.TimeboostedTransaction)) :
  map STX.timestamp (STX.stamped evs) = map fst evs.
Proof.
  unfold STX.stamped. rewrite map_map. reflexivity.
Qed.

End NewestFirst.

(** X17.  When the delivery times do not decrease, the buffer is ordered
    by timestamp, newest first, and at any render time the cards flagged
    new are exactly the first k cards for some k. *)
Theorem new_flags_form_a_prefix
  (evs : list (Z * STX.TimeboostedTransaction)) (st : STX.State) (now : Z) :
  StronglySorted Z.le (map fst evs) ->
  let fed := STX.deliver evs (STX.startStreaming None st) in
  StronglySorted (fun a b => STX.timestamp b <= STX.timestamp a)
    (STX.transactions fed)
  /\ exists k,
       (k <= List.length (STX.transactions fed))%nat
       /\ STX.renderIsNew now fed
          = repeat true k
            ++ repeat false (List.length (STX.transactions fed) - k).
Proof.
  intros Hclock fed.
  assert (Hts : StronglySorted (fun a b => b <= a)
                  (map STX.timestamp (STX.transactions fed))).
  { unfold fed.
    destruct (deliver_from_empty evs (STX.startStreaming None st) eq_refl)
      as [Hbuf _].
    rewrite Hbuf, <- firstn_map, map_rev, stamped_timestamps.
    apply StronglySorted_firstn, StronglySorted_rev, Hclock. }
  split.
  - clear -Hts. induction (STX.transactions fed) as [| e l IH];
      [constructor |].
    simpl in Hts. inversion Hts as [| ? ? Hs Hall]; subst.
    constructor; [apply IH, Hs |].
    rewrite Forall_map in Hall. exact Hall.
  - destruct (flags_of_newest_first now _ Hts) as [k [Hk Hflags]].
    rewrite length_map in Hk, Hflags. rewrite map_map in Hflags.
    exists k. split; [exact Hk | exact Hflags].
Qed.

(** Three events received at 1000, 2000 and 2500 ms and rendered at
    4500 ms: the two newest are flagged. *)
Lemma new_flags_form_a_prefix_witness :
  exists k,
    STX.renderIsNew 4500
      (STX.deliver
         [(1000, STX.mkTimeboostedTransaction "0xa" 1 0);
          (2000, STX.mkTimeboostedTransaction "0xb" 2 0);
          (2500, STX.mkTimeboostedTransaction "0xc" 2 1)]
         (STX.startStreaming None STX.initial))
    = repeat true k ++ repeat false (3 - k).
Proof.
  destruct (new_flags_form_a_prefix
              [(1000, STX.mkTimeboostedTransaction "0xa" 1 0);
               (2000, STX.mkTimeboostedTransaction "0xb" 2 0);
               (2500, STX.mkTimeboostedTransaction "0xc" 2 1)]
              STX.initial 4500) as [_ [k [_ Hk]]].
  - simpl. repeat (constructor; try lia).
  - exists k. exact Hk.
Defined.

(** X18.  [getPhaseLabel] and [getPhaseColor] tell the five phases apart:
    two phases with the same label, or with the same colour classes, are
    the same phase. *)
Theorem phase_label_and_color_distinguish_phases (p q : Phase) :
  (Format.getPhaseLabel p = Format.getPhaseLabel q -> p = q)
  /\ (Format.getPhaseColor p = Format.getPhaseColor q -> p = q).
Proof.
  split; destruct p, q; simpl; intros H; (reflexivity || discriminate H).
Qed.

(** The bidding label is the label of the bidding phase only. *)
Lemma phase_label_and_color_distinguish_phases_witness :
  bidding = bidding.
Proof.
  destruct (phase_label_and_color_distinguish_phases bidding bidding)
    as [Hlabel _].
  apply Hlabel. reflexivity.
Defined.

Section ErrorHidesFeed.

Lemma onError_is_shown (message : string) (st : STX.State) :
  View.shownError (STX.error (STX.onError message st)) <> None.
Proof.
  unfold STX.onError, JS.or_string. simpl.
  destruct (String.eqb message EmptyString) eqn:Hm; simpl.
  - discriminate.
  - rewrite Hm. discriminate.
Qed.

Lemma shown_error_stays (st : STX.State) (e : Feed.Event) :
  Feed.restarts e = false ->
  View.shownError (STX.error st) <> None ->
  View.shownError (STX.error (Feed.step st e)) <> None.
Proof.
  destruct e as [thrown | now t | message | |];
    cbn [Feed.step Feed.restarts]; intros Hr Hs; try discriminate Hr.
  - exact Hs.
  - apply onError_is_shown.
  - unfold STX.stopStreaming. simpl. destruct (STX.unwatchRef st); exact Hs.
Qed.

Lemma shown_error_stays_run (es : list Feed.Event) :
  forall st,
    existsb Feed.restarts es = false ->
    View.shownError (STX.error st) <> None ->
    View.shownError (STX.error (Feed.run es st)) <> None.
Proof.
  induction es as [| e es IH]; intros st Hr Hs; simpl; [exact Hs |].
  simpl in Hr. apply orb_false_iff in Hr. destruct Hr as [He Hes].
  apply IH; [exact Hes | now apply shown_error_stays].
Qed.

End ErrorHidesFeed.

(** X19.  After [onError], as long as the feed is neither started again
    nor reset, the error panel is rendered in place of the transaction
    list, whatever is delivered or stopped meanwhile; and a start or a
    reset, the only events that remove the error, empties the buffer: the
    events buffered when the error occurred are never rendered again. *)
Theorem error_hides_feed_until_restart
  (now : Z) (message : string) (st : STX.State) (es : list Feed.Event) :
  existsb Feed.restarts es = false ->
  (exists m,
     View.renderFeed now (Feed.run es (STX.onError message st))
     = View.FeedError m)
  /\ (forall e st',
        Feed.restarts e = true -> STX.transactions (Feed.step st' e) = []).
Proof.
  intros Hes. split.
  - pose proof (shown_error_stays_run es (STX.onError message st) Hes
                  (onError_is_shown message st)) as Hs.
    unfold View.renderFeed.
    destruct (View.shownError _) as [m |]; [| congruence].
    exists m. reflexivity.
  - intros e st' Hr. destruct e as [thrown | | | |]; try discriminate Hr.
    + simpl. destruct thrown; reflexivity.
    + simpl. unfold STX.resetComponent.
      destruct (STX.unwatchRef st'); reflexivity.
Qed.

(** One event is buffered, the subscription fails, another event arrives
    and the stream is stopped: the error is rendered, not the two
    events. *)
Lemma error_hides_feed_until_restart_witness :
  View.renderFeed 9000
    (Feed.run
       [Feed.Transaction 6000 (STX.mkTimeboostedTransaction "0xb" 2 0);
        Feed.Stop]
       (STX.onError "socket closed"
          (STX.onTransaction 5000 (STX.mkTimeboostedTransaction "0xa" 1 0)
             (STX.startStreaming None STX.initial))))
  = View.FeedError "socket closed".
Proof.
  destruct (error_hides_feed_until_restart 9000 "socket closed"
              (STX.onTransaction 5000 (STX.mkTimeboostedTransaction "0xa" 1 0)
                 (STX.startStreaming None STX.initial))
              [Feed.Transaction 6000 (STX.mkTimeboostedTransaction "0xb" 2 0);
               Feed.Stop] eq_refl) as [[m Hm] _].
  rewrite Hm. f_equal.
  assert (Hc : View.renderFeed 9000
            (Feed.run
               [Feed.Transaction 6000 (STX.mkTimeboostedTransaction "0xb" 2 0);
                Feed.Stop]
               (STX.onError "socket closed"
                  (STX.onTransaction 5000
                     (STX.mkTimeboostedTransaction "0xa" 1 0)
                     (STX.startStreaming None STX.initial))))
            = View.FeedError "socket closed") by reflexivity.
  rewrite Hc in Hm. now injection Hm.
Defined.

(** ** Runs of polls *)

Section AbsentStaysAbsent.

Lemma AS_absent_until_sample (st : AS.State) (e : AS.Event) :
  Samples.AS_isSample e = false ->
  AS.localCountdown st = None -> AS.localCountdown (AS.step st e) = None.
Proof.
  destruct e as [| now s | err | |]; simpl; intros He Hn;
    try discriminate He; try exact Hn.
  - unfold AS.countdownTick.
    destruct (AS.countdownIntervalRef st); [| exact Hn].
    simpl. now rewrite Hn.
  - unfold AS.roundStartTick.
    destruct (AS.roundStartIntervalRef st); exact Hn.
Qed.

Lemma AS_absent_until_sample_run (es : list AS.Event) :
  forall st,
    existsb Samples.AS_isSample es = false ->
    AS.localCountdown st = None -> AS.localCountdown (AS.run es st) = None.
Proof.
  induction es as [| e es IH]; intros st Hes Hn; simpl; [exact Hn |].
  simpl in Hes. apply orb_false_iff in Hes. destruct Hes as [He Hes].
  apply IH; [exact Hes | now apply AS_absent_until_sample].
Qed.

Lemma ELC_absent_until_sample (st : ELC.State) (e : ELC.Event) :
  Samples.ELC_isSample e = false ->
  ELC.localTimeRemaining st = None ->
  ELC.localTimeRemaining (ELC.step st e) = None.
Proof.
  destruct e as [| now info | err |]; simpl; intros He Hn;
    try discriminate He; try exact Hn.
  unfold ELC.countdownTick.
  destruct (ELC.countdownIntervalRef st); [| exact Hn].
  simpl. now rewrite Hn.
Qed.

Lemma ELC_absent_until_sample_run (es : list ELC.Event) :
  forall st,
    existsb Samples.ELC_isSample es = false ->
    ELC.localTimeRemaining st = None ->
    ELC.localTimeRemaining (ELC.run es st) = None.
Proof.
  induction es as [| e es IH]; intros st Hes Hn; simpl; [exact Hn |].
  simpl in Hes. apply orb_false_iff in Hes. destruct Hes as [He Hes].
  apply IH; [exact Hes | now apply ELC_absent_until_sample].
Qed.

Lemma AS_run_sample_between (e1 e2 : AS.Event) (es : list AS.Event)
  (st : AS.State) :
  AS.run (e1 :: es ++ [e2]) st = AS.step (AS.run es (AS.step st e1)) e2.
Proof. unfold AS.run. cbn [fold_left]. now rewrite fold_left_app. Qed.

Lemma ELC_run_sample_between (e1 e2 : ELC.Event) (es : list ELC.Event)
  (st : ELC.State) :
  ELC.run (e1 :: es ++ [e2]) st = ELC.step (ELC.run es (ELC.step st e1)) e2.
Proof. unfold ELC.run. cbn [fold_left]. now rewrite fold_left_app. Qed.

End AbsentStaysAbsent.

(** X20.  A countdown that a poll has cleared is resynced by its next
    sample without condition: after a status of another phase than
    bidding, whatever ticks and failed polls follow, the next bidding
    sample is displayed, however soon it arrives; likewise the next
    controller sample after a poll that reported no controller. *)
Theorem sample_after_cleared_countdown_is_displayed :
  (forall st now1 s1 es now2 s2,
     AS.currentPhase s1 <> bidding ->
     existsb Samples.AS_isSample es = false ->
     AS.currentPhase s2 = bidding ->
     AS.localCountdown
       (AS.run (AS.PollResolved now1 s1 :: es ++ [AS.PollResolved now2 s2]) st)
     = Some (AS.timeUntilAuctionCloses s2))
  /\ (forall st now1 info1 es now2 info2,
       ELC.noController (Some info1) = true ->
       existsb Samples.ELC_isSample es = false ->
       ELC.noController (Some info2) = false ->
       ELC.localTimeRemaining
         (ELC.run
            (ELC.PollResolved now1 info1 :: es ++ [ELC.PollResolved now2 info2])
            st)
       = Some (ELC.timeRemainingInRound info2)).
Proof.
  split.
  - intros st now1 s1 es now2 s2 H1 Hes H2.
    rewrite AS_run_sample_between. cbn [AS.step].
    rewrite AS_resolved_localCountdown, H2.
    rewrite (AS_absent_until_sample_run es); [reflexivity | exact Hes |].
    rewrite AS_resolved_localCountdown.
    destruct (AS.currentPhase s1); congruence.
  - intros st now1 info1 es now2 info2 H1 Hes H2.
    rewrite ELC_run_sample_between. cbn [ELC.step].
    rewrite ELC_resolved_localTimeRemaining, H2.
    rewrite (ELC_absent_until_sample_run es); [reflexivity | exact Hes |].
    now rewrite ELC_resolved_localTimeRemaining, H1.
Qed.

(** 39 is displayed; a closing status, a tick and a failed poll follow;
    the bidding sample of 40 that arrives one second after the closing
    status is displayed, although it is within the tolerance of 39. *)
Lemma sample_after_cleared_countdown_is_displayed_witness :
  AS.localCountdown
    (AS.run
       [AS.PollResolved 3000 (AS.mkAuctionStatus closing 0 15);
        AS.CountdownTick; AS.PollBegin; AS.PollRejected None;
        AS.PollResolved 4000 (AS.mkAuctionStatus bidding 40 85)]
       Scenario.AS_at_39) = Some 40.
Proof.
  destruct sample_after_cleared_countdown_is_displayed as [Hstatus _].
  apply (Hstatus Scenario.AS_at_39 3000 (AS.mkAuctionStatus closing 0 15)
           [AS.CountdownTick; AS.PollBegin; AS.PollRejected None]
           4000 (AS.mkAuctionStatus bidding 40 85)).
  - discriminate.
  - reflexivity.
  - reflexivity.
Defined.

Section NonNegative.

Lemma tickUpdater_nonnegative (local : option Z) (v : Z) :
  Countdown.tickUpdater local = Some v -> 0 <= v.
Proof.
  destruct local as [p |]; simpl; [| discriminate].
  destruct (Z.leb_spec p 0); [discriminate |]. intros [= <-]. lia.
Qed.

Lemma AS_nonnegative_step (st : AS.State) (e : AS.Event) :
  Samples.AS_nonnegative e = true ->
  Invariant.AS_nonnegative st -> Invariant.AS_nonnegative (AS.step st e).
Proof.
  intros He [Hc Hr]. destruct e as [| now s | err | |]; simpl.
  - split; assumption.
  - simpl in He. apply andb_true_iff in He. destruct He as [H1 H2].
    apply Z.leb_le in H1, H2.
    split; intros v.
    + rewrite AS_resolved_localCountdown.
      destruct (AS.currentPhase s); try discriminate.
      case_resync; [intros [= <-]; exact H1 | apply Hc].
    + rewrite AS_resolved_localRoundStartCountdown.
      destruct (AS.currentPhase s); try discriminate;
        (case_resync; [intros [= <-]; exact H2 | apply Hr]).
  - split; assumption.
  - unfold AS.countdownTick.
    destruct (AS.countdownIntervalRef st); [| split; assumption].
    split; simpl; [| exact Hr]. intros v. apply tickUpdater_nonnegative.
  - unfold AS.roundStartTick.
    destruct (AS.roundStartIntervalRef st); [| split; assumption].
    split; simpl; [exact Hc |]. intros v. apply tickUpdater_nonnegative.
Qed.

Lemma ELC_nonnegative_step (st : ELC.State) (e : ELC.Event) :
  Samples.ELC_nonnegative e = true ->
  Invariant.ELC_nonnegative st -> Invariant.ELC_nonnegative (ELC.step st e).
Proof.
  intros He Hc. destruct e as [| now info | err |]; simpl.
  - exact Hc.
  - simpl in He. apply Z.leb_le in He. intros v.
    rewrite ELC_resolved_localTimeRemaining.
    destruct (ELC.noController (Some info)); [discriminate |].
    case_resync; [intros [= <-]; exact He | apply Hc].
  - exact Hc.
  - unfold ELC.countdownTick.
    destruct (ELC.countdownIntervalRef st); [| exact Hc].
    intros v. simpl. apply tickUpdater_nonnegative.
Qed.

End NonNegative.

(** X21.  As long as the polled times are not negative, no panel ever
    displays a negative countdown: in every state reached from the
    mounted component the displayed values are at least 0. *)
Theorem displayed_countdowns_never_negative :
  (forall es v,
     forallb Samples.AS_nonnegative es = true ->
     (AS.localCountdown (AS.run es AS.initial) = Some v -> 0 <= v)
     /\ (AS.localRoundStartCountdown (AS.run es AS.initial) = Some v ->
         0 <= v))
  /\ (forall es v,
       forallb Samples.ELC_nonnegative es = true ->
       ELC.localTimeRemaining (ELC.run es ELC.initial) = Some v -> 0 <= v).
Proof.
  split.
  - intros es v Hes.
    assert (H : forall st,
              Invariant.AS_nonnegative st ->
              Invariant.AS_nonnegative (AS.run es st)).
    { induction es as [| e es IH]; intros st Hst; simpl; [exact Hst |].
      simpl in Hes. apply andb_true_iff in Hes. destruct Hes as [He Hes].
      apply (IH Hes), AS_nonnegative_step; assumption. }
    destruct (H AS.initial) as [Hc Hr]; [split; discriminate |].
    split; [apply Hc | apply Hr].
  - intros es v Hes.
    assert (H : forall st,
              Invariant.ELC_nonnegative st ->
              Invariant.ELC_nonnegative (ELC.run es st)).
    { induction es as [| e es IH]; intros st Hst; simpl; [exact Hst |].
      simpl in Hes. apply andb_true_iff in Hes. destruct Hes as [He Hes].
      apply (IH Hes), ELC_nonnegative_step; assumption. }
    apply (H ELC.initial). discriminate.
Qed.

(** A bidding sample of 1 and three ticks: the countdown went 1, 0,
    absent, and never below 0. *)
Lemma displayed_countdowns_never_negative_witness :
  AS.localCountdown
    (AS.run [AS.PollResolved 0 (AS.mkAuctionStatus bidding 1 46);
             AS.CountdownTick] AS.initial) = Some 0
  /\ 0 <= 0.
Proof.
  split; [reflexivity |].
  destruct displayed_countdowns_never_negative as [Hstatus _].
  destruct (Hstatus [AS.PollResolved 0 (AS.mkAuctionStatus bidding 1 46);
                     AS.CountdownTick] 0 eq_refl) as [Hc _].
  apply Hc. reflexivity.
Defined.

(** X22.  A start whose subscription call throws leaves the feed stopped
    with an empty buffer and a counter of 0, whatever was buffered before;
    the error panel is rendered iff the message is not empty, and with an
    empty message the idle view is rendered, with no sign of the
    failure. *)
Theorem failed_start_clears_feed
  (now : Z) (err : option string) (st : STX.State) :
  let m := JS.message_or err "Failed to start streaming" in
  let st' := STX.startStreaming (Some err) st in
  STX.transactions st' = []
  /\ STX.totalCount st' = 0
  /\ STX.isStreaming st' = false
  /\ STX.unwatchRef st' = STX.unwatchRef st
  /\ (m <> EmptyString -> View.renderFeed now st' = View.FeedError m)
  /\ (m = EmptyString -> View.renderFeed now st' = View.FeedIdle).
Proof.
  cbv zeta. repeat split.
  - intros Hm. apply String.eqb_neq in Hm.
    unfold View.renderFeed. simpl. now rewrite Hm.
  - intros Hm. unfold View.renderFeed. simpl. now rewrite Hm.
Qed.

(** Two events are buffered and the stream was stopped; the next start
    throws: the buffer is empty and the error is rendered. *)
Lemma failed_start_clears_feed_witness :
  View.renderFeed 9000
    (STX.startStreaming (Some (Some "no transport"%string))
       (Feed.run
          [Feed.Start None;
           Feed.Transaction 5000 (STX.mkTimeboostedTransaction "0xa" 1 0);
           Feed.Transaction 6000 (STX.mkTimeboostedTransaction "0xb" 2 0);
           Feed.Stop] STX.initial))
  = View.FeedError "no transport".
Proof.
  destruct (failed_start_clears_feed 9000 (Some "no transport"%string)
              (Feed.run
                 [Feed.Start None;
                  Feed.Transaction 5000
                    (STX.mkTimeboostedTransaction "0xa" 1 0);
                  Feed.Transaction 6000
                    (STX.mkTimeboostedTransaction "0xb" 2 0);
                  Feed.Stop] STX.initial))
    as [_ [_ [_ [_ [Hshown _]]]]].
  apply Hshown. discriminate.
Defined.
